(** * risksense_tools: batch import / update scripts

    A shallow embedding of the two command line tools of the repository,

    - [python/tools/tag_import_tool/import_tags.py]  (module [ImportTags])
    - [tools/cmdb_update_tool/update_cmdb.py]        (module [UpdateCmdb])

    together with the properties of their identity resolution, row
    mapping and batch loops.

    Conventions of the embedding.

    - A Python [str] is a Rocq [string]; the vocabulary of both tools
      (column names, mode names, tag types) is ASCII, and [upper] is
      [str.upper] on ASCII letters.
    - A csv row (the [dict] that [read_csv_file] builds) is a finite map
      from column names to cells. For the tag tool the cells are texts,
      [gmap string string]. For the CMDB tool a row is as
      [csv.DictReader] yields it, [UpdateCmdb.row]: the cell of a column
      is a text or, in a row shorter than the header, [None]; the cells
      of a row longer than the header are kept, as a list, under the key
      [None].
    - Values coming back from the API client are JSON shaped Python
      objects, [pyobj].
    - Python exceptions, [sys.exit] and the ordered list of observable
      actions (API calls, file reads, printed lines) are threaded through
      a small monad [M]. The API client itself is a parameter: each of
      its operations is a function of an abstract service state. *)

From Stdlib Require Import ZArith Ascii String.
From stdpp Require Import gmap strings list fin_maps.

Set Warnings "-register-all,-clear-no-such-hyp".

Open Scope string_scope.
Open Scope Z_scope.
Open Scope list_scope.

(** ** Python values and exceptions *)

Module Py.

(** Instances of [Exception] that the two scripts raise, catch or may
    receive from the API client. [KeyboardInterrupt] is not an
    [Exception] and is outside the model; [sys.exit] is modelled by the
    [SysExit] outcome below. *)
Inductive exn : Type :=
  | ValueError (msg : string)
  | KeyError (key : string)
  | IndexError
  | TypeError
  | RequestFailed (msg : string)
  | MaxRetryError (msg : string)
  | StatusCodeError (msg : string)
  | NoMatchFound (msg : string)
  | UserUnauthorized (msg : string)
  | InsufficientPrivileges (msg : string)
  | OtherException (msg : string).

(** JSON shaped objects returned by the API client. *)
Inductive pyobj : Type :=
  | PNone
  | PInt (z : Z)
  | PStr (s : string)
  | PList (l : list pyobj)
  | PDict (d : list (string * pyobj)).

(** Outcome of running a piece of Python code. *)
Inductive res (A : Type) : Type :=
  | Ok (a : A)
  | Raise (e : exn)
  | SysExit (code : Z).
Arguments Ok {A} a.
Arguments Raise {A} e.
Arguments SysExit {A} code.

(** What a call into the API client (or the file system) gives back: a
    value, or an instance of [Exception]. *)
Inductive reply (A : Type) : Type :=
  | Returns (a : A)
  | Raises (e : exn).
Arguments Returns {A} a.
Arguments Raises {A} e.

Definition res_of_reply {A} (r : reply A) : res A :=
  match r with
  | Returns a => Ok a
  | Raises e => Raise e
  end.

(** [d[key]] on an association list. *)
Fixpoint assoc (key : string) (d : list (string * pyobj)) : option pyobj :=
  match d with
  | [] => None
  | (k, v) :: d' => if String.eqb k key then Some v else assoc key d'
  end.

(** [o[key]] for a string subscript: a [dict] is looked up and raises
    [KeyError] on a missing key; no other object of the model accepts a
    string subscript. *)
Definition getitem (o : pyobj) (key : string) : res pyobj :=
  match o with
  | PDict d => match assoc key d with
               | Some v => Ok v
               | None => Raise (KeyError key)
               end
  | _ => Raise TypeError
  end.

(** [o[0]]. *)
Definition getitem0 (l : list pyobj) : res pyobj :=
  match l with
  | x :: _ => Ok x
  | [] => Raise IndexError
  end.

(** [o == z] for an integer [z]. *)
Definition eq_int (o : pyobj) (z : Z) : bool :=
  match o with
  | PInt y => Z.eqb y z
  | _ => false
  end.

(** [for x in o]: the sequence a [for] loop walks through. *)
Definition iterate (o : pyobj) : res (list pyobj) :=
  match o with
  | PList l => Ok l
  | PDict d => Ok (map (fun kv => PStr (fst kv)) d)
  | PStr s => Ok (map (fun c => PStr (String c EmptyString)) (list_ascii_of_string s))
  | _ => Raise TypeError
  end.

(** [str.upper] on ASCII. *)
Definition is_lower (c : ascii) : bool :=
  let n := N_of_ascii c in (97 <=? n)%N && (n <=? 122)%N.

Definition upper_char (c : ascii) : ascii :=
  if is_lower c then ascii_of_N (N_of_ascii c - 32) else c.

Fixpoint upper (s : string) : string :=
  match s with
  | EmptyString => EmptyString
  | String c s' => String (upper_char c) (upper s')
  end.

(** The status the interpreter hands to the shell: 0 after a normal
    return, the argument of [sys.exit], 1 after an uncaught exception. *)
Definition exit_status {A} (r : res A) : Z :=
  match r with
  | Ok _ => 0
  | SysExit c => c
  | Raise _ => 1
  end.

End Py.
Export Py.

(** ** The effect monad *)

Section Monad.
Context {W E : Type}.

(** State: the service the API client talks to, and the actions
    performed so far, oldest first. *)
Record st := St { world : W; trace : list E }.

Definition M (A : Type) : Type := st -> res A * st.

Definition ret {A} (a : A) : M A := fun s => (Ok a, s).

Definition bind {A B} (m : M A) (k : A -> M B) : M B :=
  fun s => match m s with
           | (Ok a, s') => k a s'
           | (Raise e, s') => (Raise e, s')
           | (SysExit c, s') => (SysExit c, s')
           end.

Definition raise {A} (e : exn) : M A := fun s => (Raise e, s).
Definition sys_exit {A} (c : Z) : M A := fun s => (SysExit c, s).
Definition lift {A} (r : res A) : M A := fun s => (r, s).

(** Append one action to the trace. *)
Definition emit (e : E) : M unit :=
  fun s => (Ok tt, St (world s) (trace s ++ [e])).

(** [try: m  except <classes in catches>: handler]. *)
Definition try_except {A} (m : M A) (catches : exn -> bool)
    (handler : exn -> M A) : M A :=
  fun s => match m s with
           | (Raise e, s') => if catches e then handler e s' else (Raise e, s')
           | r => r
           end.

(** A call into the API client: the call is recorded, then the
    service answers and moves to its next state. *)
Definition api_call {A} (e : E) (op : W -> reply A * W) : M A :=
  fun s => let '(r, w') := op (world s) in
           (res_of_reply r, St w' (trace s ++ [e])).

(** [for x in l: body x]. *)
Fixpoint for_each {A} (l : list A) (body : A -> M unit) : M unit :=
  match l with
  | [] => ret tt
  | x :: l' => bind (body x) (fun _ => for_each l' body)
  end.

(** [for x in l: body], where the body updates local variables [S]. *)
Fixpoint for_fold {A S} (l : list A) (body : S -> A -> M S) (acc : S) : M S :=
  match l with
  | [] => ret acc
  | x :: l' => bind (body acc x) (fun acc' => for_fold l' body acc')
  end.
End Monad.
Arguments st : clear implicits.
Arguments M : clear implicits.

Notation "'let!' x ':=' c1 'in' c2" := (bind c1 (fun x => c2))
  (at level 10, x name, c1 at level 100, c2 at level 200, only parsing).
Notation "'do!' c1 'in' c2" := (bind c1 (fun _ => c2))
  (at level 10, c1 at level 100, c2 at level 200, only parsing).

(** [d[key]] on a csv row. *)
Definition subscript {W E A} (d : gmap string A) (key : string) : M W E A :=
  match d !! key with
  | Some v => ret v
  | None => raise (KeyError key)
  end.

(** [key in d]. *)
Definition contains {A} (d : gmap string A) (key : string) : bool :=
  bool_decide (is_Some (d !! key)).

(** ** import_tags.py *)

Module ImportTags.

(** The lines the script prints, one constructor per [print] statement. *)
Inductive line : Type :=
  | UnableRetrieveForValidation  (* Unable to retrieve your client IDs for validation using profile: .. *)
  | UnableRetrieve               (* Unable to retrieve client ID using profile: .. *)
  | UnableValidate (client_id : Z) (* Unable to validate that you belong to client ID .. *)
  | Exiting                      (* Exiting. *)
  | Blank                        (* print() *)
  | Attempting (name : string)   (* Attempting to create tag ".." ... *)
  | Created (name : string) (tag_id : Z) (*  - New tag .. created as tag ID .. *)
  | UnableCreateRF (rf : exn)    (*  - Unable to create tag. {rf} *)
  | UnableCreateVE (ve : exn)    (*  - Unable to create tag.  {ve} *)
  | Done.                        (* Done. *)

(** Observable actions of a run. *)
Inductive event : Type :=
  | GetClients (page_size page_number : Z)
  | ReadCsv (filename : string)
  | TagsCreate (client_id : pyobj) (tag_type name desc owner : string)
      (color locked : string)
  | Print (l : line).

(** The collaborators: [risksense_api_python] and the csv file. *)
Record Api (W : Type) : Type := {
  get_clients : Z -> Z -> W -> reply pyobj * W;
  tags_create : pyobj -> string -> string -> string -> string -> string ->
                string -> W -> reply Z * W;
  csv_DictReader : string -> W -> reply (list (gmap string string)) * W
}.
Arguments get_clients {W}.
Arguments tags_create {W}.
Arguments csv_DictReader {W}.

Definition TAG_CSV_FILENAME : string := "csv_file_example.csv".

Definition is_RequestFailed (e : exn) : bool :=
  match e with RequestFailed _ => true | _ => false end.

Definition is_ValueError (e : exn) : bool :=
  match e with ValueError _ => true | _ => false end.

Definition acceptable_types : list string :=
  ["COMPLIANCE"; "LOCATION"; "CUSTOM"; "REMEDIATION";
   "PEOPLE"; "PROJECT"; "SCANNER"; "CMDB"].

Definition invalid_type_msg : string :=
  "Tag type is not valid.  Valid types are: COMPLIANCE, LOCATION, CUSTOM, REMEDIATION, PEOPLE, PROJECT, SCANNER, or CMDB".

(** The loop of [validate_client_id]: every entry is visited, there is
    no [break]. *)
Fixpoint validate_loop (my_clients : list pyobj) (CLIENT_ID : Z)
    (validity : bool) : res bool :=
  match my_clients with
  | [] => Ok validity
  | client :: rest =>
      match getitem client "id" with
      | Ok i => validate_loop rest CLIENT_ID
                  (if eq_int i CLIENT_ID then true else validity)
      | Raise e => Raise e
      | SysExit c => SysExit c
      end
  end.

Section Tool.
Context {W : Type} (api : Api W).

#[local] Abbreviation M := (M W event).

Definition validate_client_id (CLIENT_ID : Z) : M bool :=
  let! my_clients :=
    try_except
      (api_call (GetClients 300 0) (get_clients api 300 0))
      is_RequestFailed
      (fun _ => do! emit (Print UnableRetrieveForValidation) in
                do! emit (Print Exiting) in
                sys_exit 1) in
  let! embedded := lift (getitem my_clients "_embedded") in
  let! my_clients := lift (getitem embedded "clients") in
  let! entries := lift (iterate my_clients) in
  lift (validate_loop entries CLIENT_ID false).

Definition get_client_id : M pyobj :=
  let! my_client :=
    try_except
      (api_call (GetClients 1 0) (get_clients api 1 0))
      is_RequestFailed
      (fun _ => do! emit (Print UnableRetrieve) in
                do! emit (Print Exiting) in
                sys_exit 1) in
  let! client_id := lift (getitem my_client "id") in
  ret client_id.

(** The copy loop of [read_csv_file] rebuilds each row key by key and
    so returns the rows of the reader unchanged. *)
Definition read_csv_file (filename : string) : M (list (gmap string string)) :=
  api_call (ReadCsv filename) (csv_DictReader api filename).

Definition create_tag (CLIENT_ID : pyobj) (tag_info : gmap string string) : M Z :=
  if contains tag_info ""
  then raise (ValueError "Fields cannot be blank.")
  else
    let! t := subscript tag_info "tag_type" in
    if negb (existsb (String.eqb t) acceptable_types)
    then raise (ValueError invalid_type_msg)
    else
      let! tag_type := subscript tag_info "tag_type" in
      let! tag_name := subscript tag_info "name" in
      let! tag_desc := subscript tag_info "desc" in
      let! tag_owner := subscript tag_info "owner" in
      let! tag_color := subscript tag_info "color" in
      let! tag_locked := subscript tag_info "locked" in
      let! tag_id :=
        try_except
          (api_call
             (TagsCreate CLIENT_ID tag_type tag_name tag_desc tag_owner
                tag_color tag_locked)
             (tags_create api CLIENT_ID tag_type tag_name tag_desc tag_owner
                tag_color tag_locked))
          is_RequestFailed
          (fun rf => raise rf) in
      ret tag_id.

(** Body of the loop of [main]. *)
Definition create_one (CLIENT_ID : pyobj) (item : gmap string string) : M unit :=
  let! name := subscript item "name" in
  do! emit (Print (Attempting name)) in
  try_except
    (try_except
       (let! new_tag_id := create_tag CLIENT_ID item in
        let! name := subscript item "name" in
        emit (Print (Created name new_tag_id)))
       is_RequestFailed
       (fun rf => emit (Print (UnableCreateRF rf))))
    is_ValueError
    (fun ve => emit (Print (UnableCreateVE ve))).

(** [main], from the csv file on. *)
Definition import_rows (CLIENT_ID : pyobj) : M unit :=
  let! csv_data_dict := read_csv_file TAG_CSV_FILENAME in
  do! emit (Print Blank) in
  do! for_each csv_data_dict (create_one CLIENT_ID) in
  do! emit (Print Blank) in
  emit (Print Done).

(** [main]; the argument is the configured value of the global
    [CLIENT_ID]. *)
Definition main (CLIENT_ID : option Z) : M unit :=
  let! CLIENT_ID :=
    match CLIENT_ID with
    | None => get_client_id
    | Some c =>
        let! client_validity := validate_client_id c in
        if client_validity then ret (PInt c)
        else do! emit (Print (UnableValidate c)) in
             do! emit (Print Exiting) in
             sys_exit 1
    end in
  import_rows CLIENT_ID.
End Tool.

End ImportTags.

(** ** update_cmdb.py *)

Module UpdateCmdb.

(** One criterion of a search filter (a [dict] with these four keys). *)
Record criterion : Type := Criterion {
  field : string;
  exclusive : bool;
  operator : string;
  value : option string
}.

(** A row of the csv file as [csv.DictReader] yields it. [cells] maps
    the columns of the header to their cells: the text of the cell, or
    [None] (Python's [None], the default [restval]) for a cell that a
    short row does not have. [rest] is the entry under the key [None]
    (the default [restkey]): the cells of a long row beyond the header,
    when there are any. *)
Record row : Type := Row {
  cells : gmap string (option string);
  rest : option (list string)
}.

(** The lines the script prints, one constructor per [print] statement. *)
Inductive line : Type :=
  | UnableValidate (client_id : Z)  (* Unable to validate that you belong to client ID .. *)
  | ExitingDot                      (* Exiting. *)
  | ReadingCsv                      (* Reading csv file... *)
  | ItemsFound (total_items : nat)  (*  - .. items found in the .csv file. *)
  | Exiting                         (* Exiting... *)
  | Blank                           (* print() *)
  | Submitted (host : option string) (job_id : Z)
      (* Update request for .. successfully submitted as job ... *)
  | LoopEx (ex : exn)               (* print(ex), in the loop of __init__ *)
  | SendEx (ex : exn)               (* print(ex), in send_update_request *)
  | DoneBanner                      (* DONE banner *)
  | SummarySuccess (success_counter total_items : nat)
  | SummaryFailure (failure_counter total_items : nat).

(** Observable actions of a run. *)
Inductive event : Type :=
  | SetDefaultClientId (client_id : pyobj)
  | ReadCsv (filename : string)
  | UpdateHostsCmdb (search_filter : list criterion)
      (update_dict : gmap string (option string))
  | Print (l : line).

(** The collaborators: [risksense_api] and the csv file. *)
Record Api (W : Type) : Type := {
  my_clients : list pyobj;
  update_hosts_cmdb :
    list criterion -> gmap string (option string) -> W -> reply Z * W;
  csv_DictReader : string -> W -> reply (list row) * W
}.
Arguments my_clients {W}.
Arguments update_hosts_cmdb {W}.
Arguments csv_DictReader {W}.

(** The values read from [conf/config.toml]. *)
Record config : Type := Config {
  platform_url : string;
  api_key : string;
  cmdb_csv_filename : string;
  network_type : string;
  client_id : option Z
}.

Definition is_ValueError (e : exn) : bool :=
  match e with ValueError _ => true | _ => false end.

(** [except (rsapi.StatusCodeError, rsapi.MaxRetryError,
    rsapi.UserUnauthorized, rsapi.InsufficientPrivileges,
    rsapi.NoMatchFound)]. *)
Definition is_rsapi_error (e : exn) : bool :=
  match e with
  | StatusCodeError _ | MaxRetryError _ | UserUnauthorized _
  | InsufficientPrivileges _ | NoMatchFound _ => true
  | _ => false
  end.

(** [except (..., Exception)]: every exception of the model. *)
Definition is_Exception (e : exn) : bool := true.

(** [kwargs.pop(key)]. *)
Definition pop (kwargs : gmap string (option string)) (key : string)
    : res (gmap string (option string)) :=
  match kwargs !! key with
  | Some _ => Ok (delete key kwargs)
  | None => Raise (KeyError key)
  end.

(** [v != empty_string]: [None] is not the empty string. *)
Definition not_empty_string (v : option string) : bool :=
  match v with
  | Some text => negb (String.eqb text "")
  | None => true
  end.

(** The [update_dict] loop of [send_update_request]. *)
Definition update_dict (kwargs : gmap string (option string))
    : gmap string (option string) :=
  map_fold
    (fun item v acc => if not_empty_string v then <[item := v]> acc else acc)
    ∅ kwargs.

(** The [search_filter] branch of [send_update_request]. *)
Definition search_filter (network_type : string) (host : option string)
    : list criterion :=
  if String.eqb (upper network_type) "HOSTNAME"
  then [ {| field := "hostname"; exclusive := false;
            operator := "EXACT"; value := host |} ]
  else [ {| field := "ipAddress"; exclusive := false;
            operator := "EXACT"; value := host |} ].

(** [host != empty_string and host is not None]. *)
Definition host_given (host : option string) : bool :=
  match host with
  | Some h => negb (String.eqb h "")
  | None => false
  end.

(** The loop of [validate_client_id], collecting [client['id']]. *)
Fixpoint client_ids (clients : list pyobj) : res (list pyobj) :=
  match clients with
  | [] => Ok []
  | client :: rest =>
      match getitem client "id" with
      | Ok i => match client_ids rest with
                | Ok ids => Ok (i :: ids)
                | r => r
                end
      | Raise e => Raise e
      | SysExit c => SysExit c
      end
  end.

Section Tool.
Context {W : Type} (api : Api W).

#[local] Abbreviation M := (M W event).

Definition validate_client_id (submitted_client_id : Z) : M unit :=
  let! my_client_ids := lift (client_ids (my_clients api)) in
  if existsb (fun i => eq_int i submitted_client_id) my_client_ids
  then ret tt
  else raise (ValueError "User not assigned to the submitted client ID.").

Definition get_client_id : M pyobj :=
  let! first := lift (getitem0 (my_clients api)) in
  lift (getitem first "id").

Definition read_csv_file (filename : string) : M (list row) :=
  api_call (ReadCsv filename) (csv_DictReader api filename).

Definition send_update_request (network_type : string)
    (kwargs : gmap string (option string)) : M Z :=
  let host := default None (kwargs !! "host") in
  let! kwargs := lift (pop kwargs "host") in
  let update_dict := update_dict kwargs in
  let search_filter := search_filter network_type host in
  if host_given host
  then
    try_except
      (api_call (UpdateHostsCmdb search_filter update_dict)
         (update_hosts_cmdb api search_filter update_dict))
      is_rsapi_error
      (fun ex => do! emit (Print (SendEx ex)) in raise ex)
  else raise (ValueError "There was no host provided for this row.").

(** The call in the loop unpacks the row into keyword arguments:
    keywords must be strings, so a row with the key [None] is refused
    with [TypeError], and a column called [self] clashes with the bound
    argument, with [TypeError] again. *)
Definition call_send_update_request (network_type : string)
    (item : row) : M Z :=
  if bool_decide (is_Some (rest item)) then raise TypeError
  else if contains (cells item) "self" then raise TypeError
  else send_update_request network_type (cells item).

(** Body of the loop of [__init__]; the accumulator is
    [(success_counter, failure_counter)]. *)
Definition update_one (network_type : string) (counters : nat * nat)
    (item : row) : M (nat * nat) :=
  let '(success_counter, failure_counter) := counters in
  try_except
    (let! job_id := call_send_update_request network_type item in
     let! host := subscript (cells item) "host" in
     do! emit (Print (Submitted host job_id)) in
     ret (S success_counter, failure_counter))
    is_Exception
    (fun ex => do! emit (Print (LoopEx ex)) in
               ret (success_counter, S failure_counter)).

(** [__init__], from the csv file on. *)
Definition update_rows (network_type cmdb_csv_filename : string) : M unit :=
  do! emit (Print ReadingCsv) in
  let! csv_data_dict := read_csv_file cmdb_csv_filename in
  let total_items := length csv_data_dict in
  do! emit (Print (ItemsFound total_items)) in
  if Nat.eqb total_items 0
  then do! emit (Print Exiting) in sys_exit 1
  else
    do! emit (Print Blank) in
    let! counters := for_fold csv_data_dict (update_one network_type) (0%nat, 0%nat) in
    do! emit (Print Blank) in
    do! emit (Print DoneBanner) in
    do! emit (Print (SummarySuccess (fst counters) total_items)) in
    emit (Print (SummaryFailure (snd counters) total_items)).

(** [CmdbUpdateTool.__init__], given the parsed configuration. *)
Definition CmdbUpdateTool_init (config : config) : M unit :=
  let! client_id :=
    match client_id config with
    | None => get_client_id
    | Some c =>
        try_except
          (do! validate_client_id c in ret (PInt c))
          is_ValueError
          (fun _ => do! emit (Print (UnableValidate c)) in
                    do! emit (Print ExitingDot) in
                    sys_exit 1)
    end in
  do! api_call (SetDefaultClientId client_id) (fun w => (Returns tt, w)) in
  update_rows (network_type config) (cmdb_csv_filename config).
End Tool.

End UpdateCmdb.

(** ** Vocabulary of the specification *)

Module Spec.

(** Case-insensitive comparison of two ASCII strings: position by
    position the characters are the same, or one is a lower-case letter
    and the other the upper-case letter 32 code points below it. *)
Definition same_letter (a b : ascii) : bool :=
  let x := N_of_ascii a in
  let y := N_of_ascii b in
  (x =? y)%N
  || (is_lower a && (y + 32 =? x)%N)
  || (is_lower b && (x + 32 =? y)%N).

Fixpoint eq_ignore_case (s t : string) : bool :=
  match s, t with
  | EmptyString, EmptyString => true
  | String a s', String b t' => same_letter a b && eq_ignore_case s' t'
  | _, _ => false
  end.

(** No character of the string is a lower-case letter. *)
Fixpoint no_lower (t : string) : bool :=
  match t with
  | EmptyString => true
  | String b t' => negb (is_lower b) && no_lower t'
  end.

(** The identifier of one entry of the authorized-identity list. *)
Definition entry_id (client : pyobj) : option Z :=
  match getitem client "id" with
  | Ok (PInt z) => Some z
  | _ => None
  end.

(** The authorized-identity list carried by a list of client entries. *)
Definition entry_ids (clients : list pyobj) : option (list Z) :=
  mapM entry_id clients.

(** The authorized-identity list carried by one page of the client
    listing of [risksense_api_python], as [validate_client_id] reads it:
    the entries under [_embedded], [clients]. *)
Definition listed_ids (page : pyobj) : option (list Z) :=
  match getitem page "_embedded" with
  | Ok embedded =>
      match getitem embedded "clients" with
      | Ok (PList clients) => entry_ids clients
      | _ => None
      end
  | _ => None
  end.

(** A page of the listing holding the given identifiers. *)
Definition clients_page (ids : list Z) : pyobj :=
  PDict [("_embedded",
          PDict [("clients", PList (map (fun i => PDict [("id", PInt i)]) ids))])].

(** The paged listing of the service: page [page_number] of size
    [page_size] of the full list. *)
Definition page_of (all : list Z) (page_size page_number : nat) : list Z :=
  take page_size (drop (page_size * page_number) all).

End Spec.
Export Spec.

Module TagOutcomes.
Import ImportTags.

(** The outcome line of a record, if the action is one: [true] for a
    created tag, [false] for a reported failure. *)
Definition outcome_of (e : event) : option bool :=
  match e with
  | Print (Created _ _) => Some true
  | Print (UnableCreateRF _) | Print (UnableCreateVE _) => Some false
  | _ => None
  end.

Definition outcomes (t : list event) : list bool := omap outcome_of t.

(** The submissions made to the tag-creation operation. *)
Definition submission_of (e : event) : option event :=
  match e with
  | TagsCreate _ _ _ _ _ _ _ => Some e
  | _ => None
  end.

Definition submissions (t : list event) : list event := omap submission_of t.

(** The csv file reads of a run. *)
Definition reads (t : list event) : list string :=
  omap (fun e => match e with ReadCsv f => Some f | _ => None end) t.

(** The six columns of the tag csv file. *)
Definition has_tag_columns (row : gmap string string) : Prop :=
  Forall (fun k => is_Some (row !! k))
    ["tag_type"; "name"; "desc"; "owner"; "color"; "locked"].

(** The tag-creation operation fails only in the ways [create_tag]
    documents ([:raises:] [ValueError], [RequestFailed]). *)
Definition raises_as_documented {W} (api : Api W) : Prop :=
  forall cid t n d o c l w e w',
    tags_create api cid t n d o c l w = (Raises e, w') ->
    is_RequestFailed e || is_ValueError e = true.

(** The loop of [main] runs to its end with one outcome per record. *)
Definition loop_isolates {W} (api : Api W) (cid : pyobj)
    (rows : list (gmap string string)) (s : st W event) : Prop :=
  exists s' os,
    for_each rows (create_one api cid) s = (Ok tt, s')
    /\ outcomes (trace s') = outcomes (trace s) ++ os
    /\ length os = length rows.

(** An input file without data rows ends the run with a non-zero
    status. *)
Definition empty_input_is_fatal {W} (api : Api W) (CLIENT_ID : option Z)
    (s : st W event) : Prop :=
  forall w', csv_DictReader api TAG_CSV_FILENAME (world s) = (Returns [], w') ->
  exit_status (main api CLIENT_ID s).1 <> 0.
End TagOutcomes.

Module CmdbOutcomes.
Import UpdateCmdb.

(** The outcome line of a record, if the action is one: [true] for a
    submitted update, [false] for a failure reported by the loop. *)
Definition outcome_of (e : event) : option bool :=
  match e with
  | Print (Submitted _ _) => Some true
  | Print (LoopEx _) => Some false
  | _ => None
  end.

Definition outcomes (t : list event) : list bool := omap outcome_of t.

Definition count (b : bool) (os : list bool) : nat :=
  length (filter (fun o => o = b) os).

(** The calls made to the bulk-update operation. *)
Definition submission_of (e : event)
    : option (list criterion * gmap string (option string)) :=
  match e with
  | UpdateHostsCmdb f d => Some (f, d)
  | _ => None
  end.

Definition submissions (t : list event)
    : list (list criterion * gmap string (option string)) :=
  omap submission_of t.

Definition reads (t : list event) : list string :=
  omap (fun e => match e with ReadCsv f => Some f | _ => None end) t.

(** The search filter consists of a single criterion on [key]. *)
Definition keyed_on (f : list criterion) (key : string) : Prop :=
  exists c, f = [c] /\ field c = key.

(** The reading of the network mode as an exact string: ["HOSTNAME"]
    selects the hostname field and every other string the IP-address
    field. *)
Definition exact_mode_selects (network_type host : string) : Prop :=
  (network_type = "HOSTNAME" ->
     keyed_on (search_filter network_type (Some host)) "hostname")
  /\ (network_type <> "HOSTNAME" ->
     keyed_on (search_filter network_type (Some host)) "ipAddress").
End CmdbOutcomes.

(** ** Sample services and records *)

Module Samples.

(** A tag service whose client listing is paged over [all]; creating a
    tag called [dup] is refused, every other creation returns tag 77. *)
Definition tag_api (all : list Z) (rows : list (gmap string string))
    : ImportTags.Api unit := {|
  ImportTags.get_clients := fun page_size page_number w =>
    (Returns (clients_page
                (page_of all (Z.to_nat page_size) (Z.to_nat page_number))), w);
  ImportTags.tags_create := fun _ _ name _ _ _ _ w =>
    (if String.eqb name "dup"
     then Raises (RequestFailed "tag exists")
     else Returns 77, w);
  ImportTags.csv_DictReader := fun _ w => (Returns rows, w)
|}.

(** A CMDB service with the given client entries; updating the host
    [ghost] finds no match, every other update is accepted as job 5. *)
Definition cmdb_api (ids : list Z) (rows : list UpdateCmdb.row)
    : UpdateCmdb.Api unit := {|
  UpdateCmdb.my_clients := map (fun i => PDict [("id", PInt i)]) ids;
  UpdateCmdb.update_hosts_cmdb := fun f _ w =>
    (if bool_decide (map UpdateCmdb.value f = [Some "ghost"])
     then Raises (NoMatchFound "no match")
     else Returns 5, w);
  UpdateCmdb.csv_DictReader := fun _ w => (Returns rows, w)
|}.

Definition s0 {E} : st unit E := St tt [].

Definition tag_row (tag_type name desc : string) : gmap string string :=
  list_to_map [("tag_type", tag_type); ("name", name); ("desc", desc);
               ("owner", "1"); ("color", "#648d9f"); ("locked", "false")].

(** A tag row from a file without the [name] column. *)
Definition nameless_row : gmap string string :=
  list_to_map [("tag_type", "CUSTOM"); ("desc", "d")].

(** The cells of a CMDB row in which every column has a text. *)
Definition texts (l : list (string * string)) : gmap string (option string) :=
  Some <$> list_to_map l.

(** A CMDB row as long as the header. *)
Definition text_row (l : list (string * string)) : UpdateCmdb.row :=
  {| UpdateCmdb.cells := texts l; UpdateCmdb.rest := None |}.

(** The cells of a CMDB row with 25 optional columns of which three
    are filled. *)
Definition sparse_row : gmap string (option string) :=
  texts
    [("host", "web01"); ("os", "Linux"); ("manufacturer", ""); ("model_id", "");
     ("location", "Berlin"); ("managed_by", ""); ("owned_by", "");
     ("supported_by", ""); ("support_group", ""); ("sys_updated_on", "");
     ("asset_tag", "A-17"); ("mac_address", ""); ("ferpa", ""); ("hippa", "");
     ("pci", ""); ("sys_id", ""); ("cf_1", ""); ("cf_2", ""); ("cf_3", "");
     ("cf_4", ""); ("cf_5", ""); ("cf_6", ""); ("cf_7", ""); ("cf_8", "");
     ("cf_9", ""); ("cf_10", "")].

Definition sample_config (network_type : string) (client_id : option Z)
    : UpdateCmdb.config := {|
  UpdateCmdb.platform_url := "https://platform.risksense.com";
  UpdateCmdb.api_key := "key";
  UpdateCmdb.cmdb_csv_filename := "cmdb.csv";
  UpdateCmdb.network_type := network_type;
  UpdateCmdb.client_id := client_id
|}.

End Samples.

(** ** Further vocabulary and samples *)

Module Csv.



End Csv.

Module TagRun.
Import ImportTags.

(** A submission under the identity [cid] with a tag type of the
    enumeration. *)
Definition valid_submission (cid : pyobj) (e : event) : Prop :=
  match e with
  | TagsCreate c t _ _ _ _ _ => c = cid /\ t ∈ acceptable_types
  | _ => False
  end.

(** The page size of the listing query that [main] starts with. *)
Definition first_query (CLIENT_ID : option Z) : Z :=
  match CLIENT_ID with
  | None => 1
  | Some _ => 300
  end.

(** The line printed when that query is refused. *)
Definition refusal_line (CLIENT_ID : option Z) : line :=
  match CLIENT_ID with
  | None => UnableRetrieve
  | Some _ => UnableRetrieveForValidation
  end.

End TagRun.

Module CmdbRun.
Import UpdateCmdb.

(** The request the loop of [__init__] sends for a row, if it sends
    one: none for a row with cells beyond the header, for a row with a
    [self] column and for a row without host text. *)
Definition request_of (network_type : string) (item : row)
    : option (list criterion * gmap string (option string)) :=
  let host := default None (cells item !! "host") in
  if bool_decide (is_Some (rest item)) then None
  else if contains (cells item) "self" then None
  else if host_given host
       then Some (search_filter network_type host,
                  update_dict (delete "host" (cells item)))
       else None.

End CmdbRun.

Module MoreSamples.

(** A tag service that refuses every listing query. *)
Definition offline_tag_api : ImportTags.Api unit := {|
  ImportTags.get_clients := fun _ _ w => (Raises (RequestFailed "401"), w);
  ImportTags.tags_create := fun _ _ _ _ _ _ _ w => (Returns 77, w);
  ImportTags.csv_DictReader := fun _ w => (Returns [], w)
|}.

(** Services whose csv file cannot be opened. *)
Definition no_file_tag_api : ImportTags.Api unit := {|
  ImportTags.get_clients := fun _ _ w => (Returns (clients_page [10]), w);
  ImportTags.tags_create := fun _ _ _ _ _ _ _ w => (Returns 77, w);
  ImportTags.csv_DictReader := fun _ w =>
    (Raises (OtherException "No such file or directory"), w)
|}.

Definition no_file_cmdb_api : UpdateCmdb.Api unit := {|
  UpdateCmdb.my_clients := [PDict [("id", PInt 10)]];
  UpdateCmdb.update_hosts_cmdb := fun _ _ w => (Returns 5, w);
  UpdateCmdb.csv_DictReader := fun _ w =>
    (Raises (OtherException "No such file or directory"), w)
|}.

(** The cells of a CMDB row with a host and nothing else filled in. *)
Definition host_only_row : gmap string (option string) :=
  Samples.texts [("host", "10.0.0.7"); ("os", ""); ("location", "");
                 ("asset_tag", "")].

(** The keyword arguments of a row shorter than its header: under the
    header [host,os,location] the line [web01] has no cell for [os]
    and [location]. *)
Definition short_row : gmap string (option string) :=
  {[ "host" := Some "web01"; "os" := None; "location" := None ]}.

(** A row longer than its header: under the header [host,os] the line
    [web01,Linux,Berlin] has one cell too many. *)
Definition long_row : UpdateCmdb.row :=
  {| UpdateCmdb.cells := Samples.texts [("host", "web01"); ("os", "Linux")];
     UpdateCmdb.rest := Some ["Berlin"] |}.

End MoreSamples.

(** * Properties *)

(** ** Strings *)

Section Strings.

Lemma N_of_ascii_inj (a b : ascii) : N_of_ascii a = N_of_ascii b -> a = b.
Proof.
  intros H. rewrite <- (ascii_N_embedding a), <- (ascii_N_embedding b).
  now rewrite H.
Qed.

Lemma ascii_eqb_N (a b : ascii) :
  Ascii.eqb a b = (N_of_ascii a =? N_of_ascii b)%N.
Proof.
  destruct (Ascii.eqb_spec a b) as [->|Hne].
  - now rewrite N.eqb_refl.
  - symmetry. apply N.eqb_neq. intros H. apply Hne, N_of_ascii_inj, H.
Qed.

Lemma is_lower_bounds (a : ascii) :
  is_lower a = true <-> (97 <= N_of_ascii a <= 122)%N.
Proof.
  unfold is_lower. cbv zeta.
  rewrite andb_true_iff, !N.leb_le. tauto.
Qed.

Lemma N_of_upper_char (a : ascii) :
  is_lower a = true -> N_of_ascii (upper_char a) = (N_of_ascii a - 32)%N.
Proof.
  intros H. unfold upper_char. rewrite H.
  apply is_lower_bounds in H.
  apply N_ascii_embedding. lia.
Qed.

(** Against a character that is not a lower-case letter, comparing
    ignoring case is comparing the upper-cased character. *)
Lemma same_letter_upper (a b : ascii) :
  is_lower b = false -> same_letter a b = Ascii.eqb (upper_char a) b.
Proof.
  intros Hb. unfold same_letter. cbv zeta. rewrite Hb, andb_false_l, orb_false_r.
  rewrite ascii_eqb_N.
  destruct (is_lower a) eqn:Ha.
  - rewrite (N_of_upper_char a Ha), andb_true_l.
    apply is_lower_bounds in Ha.
    assert (Hne : (N_of_ascii a =? N_of_ascii b)%N = false).
    { apply N.eqb_neq. intros E.
      assert (is_lower b = true) by (apply is_lower_bounds; lia).
      congruence. }
    rewrite Hne, orb_false_l.
    destruct (N.eqb_spec (N_of_ascii b + 32) (N_of_ascii a));
      destruct (N.eqb_spec (N_of_ascii a - 32) (N_of_ascii b)); trivial; lia.
  - unfold upper_char. rewrite Ha, andb_false_l, orb_false_r. reflexivity.
Qed.

Lemma eq_ignore_case_upper (s t : string) :
  no_lower t = true -> eq_ignore_case s t = String.eqb (upper s) t.
Proof.
  revert t. induction s as [|a s IH]; intros [|b t] Ht; simpl; trivial.
  simpl in Ht. apply andb_true_iff in Ht as [Hb Ht].
  apply negb_true_iff in Hb.
  now rewrite (same_letter_upper a b Hb), (IH t Ht).
Qed.

End Strings.

(** ** update_cmdb.py: row mapping *)

Section CmdbRows.
Import UpdateCmdb CmdbOutcomes.
Context {W : Type} (api : UpdateCmdb.Api W).

Lemma submissions_app (t u : list event) :
  submissions (t ++ u) = submissions t ++ submissions u.
Proof. apply omap_app. Qed.

Lemma outcomes_app (t u : list event) :
  outcomes (t ++ u) = outcomes t ++ outcomes u.
Proof. apply omap_app. Qed.

Lemma not_empty_string_spec (v : option string) :
  not_empty_string v = true <-> v <> Some "".
Proof.
  destruct v as [text|]; simpl; [|split; [discriminate|reflexivity]].
  destruct (String.eqb_spec text "") as [->|Hne]; simpl.
  - split; [discriminate|]. intros H. now contradiction H.
  - split; [|reflexivity]. intros _ [= H]. contradiction.
Qed.

(** What one run of [send_update_request] does, by cases on the host
    cell and on the answer of the bulk-update operation. *)
Lemma send_update_request_run (network_type : string)
    (kwargs : gmap string (option string)) (s : st W event) :
  send_update_request api network_type kwargs s =
  match kwargs !! "host" with
  | None => (Raise (KeyError "host"), s)
  | Some host =>
      if host_given host
      then
        let f := search_filter network_type host in
        let d := update_dict (delete "host" kwargs) in
        match update_hosts_cmdb api f d (world s) with
        | (Returns job_id, w') =>
            (Ok job_id, St w' (trace s ++ [UpdateHostsCmdb f d]))
        | (Raises ex, w') =>
            (Raise ex,
             St w' (trace s ++ UpdateHostsCmdb f d ::
                      if is_rsapi_error ex then [Print (SendEx ex)] else []))
        end
      else (Raise (ValueError "There was no host provided for this row."), s)
  end.
Proof.
  unfold send_update_request, bind, lift, pop.
  destruct (kwargs !! "host") as [host|] eqn:Hh; [|reflexivity].
  simpl. destruct (host_given host); [|reflexivity].
  unfold try_except, api_call.
  destruct (update_hosts_cmdb api _ _ (world s)) as [[j|ex] w']; simpl; [reflexivity|].
  destruct (is_rsapi_error ex); [|reflexivity].
  unfold emit, raise. simpl. now rewrite <- app_assoc.
Qed.

(** The loop over the optional cells keeps exactly the cells that are
    not the empty text. *)
Lemma update_dict_lookup (kwargs : gmap string (option string)) (k : string)
    (v : option string) :
  update_dict kwargs !! k = Some v <-> kwargs !! k = Some v /\ v <> Some "".
Proof.
  unfold update_dict.
  induction kwargs as [|i x m Hi Hfold IH] using map_first_key_ind.
  - rewrite map_fold_empty, !lookup_empty. naive_solver.
  - rewrite map_fold_insert_first_key by assumption.
    destruct (not_empty_string x) eqn:Hx.
    + apply not_empty_string_spec in Hx.
      destruct (decide (i = k)) as [->|Hne].
      * rewrite !lookup_insert_eq. naive_solver.
      * rewrite !lookup_insert_ne by assumption. apply IH.
    + assert (x = Some "") as ->.
      { destruct x as [text|]; [|discriminate]. simpl in Hx.
        apply negb_false_iff in Hx. now apply String.eqb_eq in Hx as ->. }
      rewrite IH. destruct (decide (i = k)) as [->|Hne].
      * rewrite lookup_insert_eq, Hi. naive_solver.
      * rewrite lookup_insert_ne by assumption. reflexivity.
Qed.

End CmdbRows.

Section CmdbClaims.
Import UpdateCmdb CmdbOutcomes.
Context {W : Type} (api : UpdateCmdb.Api W).

(** The submissions of one run of [send_update_request]: a single call
    carrying the filter and the sparse mapping when the host cell is
    filled, none otherwise. *)
Lemma send_update_request_submissions (network_type : string)
    (kwargs : gmap string (option string)) (s : st W event) :
  submissions (trace (send_update_request api network_type kwargs s).2) =
  submissions (trace s) ++
  let host := default None (kwargs !! "host") in
  if host_given host
  then [(search_filter network_type host, update_dict (delete "host" kwargs))]
  else [].
Proof.
  rewrite send_update_request_run.
  destruct (kwargs !! "host") as [host|]; simpl; [|now rewrite app_nil_r].
  destruct (host_given host); simpl; [|now rewrite app_nil_r].
  destruct (update_hosts_cmdb api _ _ (world s)) as [[j|ex] w']; simpl.
  - now rewrite submissions_app.
  - rewrite submissions_app. f_equal.
    destruct (is_rsapi_error ex); reflexivity.
Qed.

(** A host cell that is blank, or missing from a short row, is refused
    with the [ValueError] of the function, and nothing is sent. *)
Lemma send_update_request_blank_host (network_type : string)
    (kwargs : gmap string (option string)) (s : st W event) :
  kwargs !! "host" = Some (Some "") \/ kwargs !! "host" = Some None ->
  send_update_request api network_type kwargs s =
  (Raise (ValueError "There was no host provided for this row."), s).
Proof.
  intros [H|H]; rewrite send_update_request_run, H; reflexivity.
Qed.

(** On a row that has a text in every cell, the mapping built from the
    optional cells holds exactly the non-host columns whose text is not
    blank. *)
Lemma update_dict_of_texts (kwargs : gmap string (option string))
    (k : string) (v : option string) :
  (forall k', kwargs !! k' <> Some None) ->
  update_dict (delete "host" kwargs) !! k = Some v
  <-> k <> "host"
      /\ exists text, v = Some text /\ text <> "" /\ kwargs !! k = Some v.
Proof.
  intros Htexts. rewrite update_dict_lookup.
  destruct (decide (k = "host")) as [->|Hk].
  - rewrite lookup_delete_eq. naive_solver.
  - rewrite lookup_delete_ne by congruence. split.
    + intros [Hv Hne]. split; [assumption|].
      destruct v as [text|]; [|now apply Htexts in Hv].
      exists text. repeat split; [congruence|assumption].
    + intros (_ & text & -> & Hne & Hv). split; [assumption|congruence].
Qed.

(** C2, amended. For every update record with a non-empty host the
    function sends one request whose search filter carries that host; the
    filter is keyed on the hostname field when the upper-cased network
    mode is HOSTNAME (HOSTNAME, Hostname, hostname, ...) and on the
    IP-address field for every other network mode. *)
Theorem send_update_request_filter_key (network_type : string)
    (kwargs : gmap string (option string)) (h : string) (s : st W event) :
  kwargs !! "host" = Some (Some h) -> h <> "" ->
  exists f d,
    submissions (trace (send_update_request api network_type kwargs s).2)
      = submissions (trace s) ++ [(f, d)]
    /\ map value f = [Some h]
    /\ (upper network_type = "HOSTNAME" -> keyed_on f "hostname")
    /\ (upper network_type <> "HOSTNAME" -> keyed_on f "ipAddress").
Proof.
  intros Hh Hne.
  exists (search_filter network_type (Some h)), (update_dict (delete "host" kwargs)).
  split.
  { rewrite send_update_request_submissions, Hh. simpl.
    destruct (String.eqb_spec h ""); [contradiction|reflexivity]. }
  unfold search_filter, keyed_on.
  destruct (String.eqb_spec (upper network_type) "HOSTNAME") as [E|E];
    (split; [reflexivity|]); split; intros E'; try contradiction; eauto.
Qed.

(** C4, at a record without a host column: the function stops at
    [kwargs.pop('host')] with [KeyError], not with the [ValueError] that
    reports a missing host. Nothing is sent. *)
Theorem send_update_request_absent_host (network_type : string)
    (s : st W event) :
  send_update_request api network_type {[ "os" := Some "Linux" ]} s =
  (Raise (KeyError "host"), s).
Proof. rewrite send_update_request_run. reflexivity. Qed.

(** C5, at a row shorter than its header: the cells the row does not
    have are [None], the loop over the optional cells tests them against
    the empty text only, and so the request is sent with the columns
    [os] and [location] in its mapping although the row has no text for
    them. *)
Theorem send_update_request_sends_missing_cells (network_type : string)
    (s : st W event) :
  submissions
    (trace (send_update_request api network_type MoreSamples.short_row s).2)
  = submissions (trace s) ++
    [(search_filter network_type (Some "web01"),
      {[ "os" := None; "location" := None ]})].
Proof.
  rewrite send_update_request_submissions. f_equal.
Qed.

(** C6. The search key of the request is chosen by a two-way branch on
    the network mode compared with HOSTNAME ignoring case: whenever
    [send_update_request] sends a request, its search filter is a single
    criterion on the host, on the hostname field when the two agree
    ignoring case and on the IP-address field for every other network
    mode, in both cases with operator EXACT and exclusive false; and
    this is the filter the function builds for every host. *)
Theorem send_update_request_mode_ignores_case (network_type : string)
    (kwargs : gmap string (option string)) (s : st W event) :
  let key := if eq_ignore_case network_type "HOSTNAME"
             then "hostname" else "ipAddress" in
  let host := default None (kwargs !! "host") in
  submissions (trace (send_update_request api network_type kwargs s).2)
  = submissions (trace s) ++
    (if host_given host
     then [([ {| field := key; exclusive := false;
                 operator := "EXACT"; value := host |} ],
            update_dict (delete "host" kwargs))]
     else [])
  /\ forall h : option string,
       search_filter network_type h
       = [ {| field := key; exclusive := false;
              operator := "EXACT"; value := h |} ].
Proof.
  cbv zeta.
  assert (Hf : forall h : option string,
             search_filter network_type h
             = [ {| field := if eq_ignore_case network_type "HOSTNAME"
                             then "hostname" else "ipAddress";
                    exclusive := false; operator := "EXACT"; value := h |} ]).
  { intros h. unfold search_filter.
    rewrite (eq_ignore_case_upper network_type "HOSTNAME") by reflexivity.
    destruct (String.eqb (upper network_type) "HOSTNAME"); reflexivity. }
  split; [|exact Hf].
  rewrite send_update_request_submissions. cbv zeta. now rewrite Hf.
Qed.

End CmdbClaims.

(** C2, as stated, fails for the network mode Hostname: it is not the
    string HOSTNAME, yet the filter is keyed on the hostname field. *)
Lemma exact_mode_fails_for_Hostname :
  ~ CmdbOutcomes.exact_mode_selects "Hostname" "web01".
Proof.
  intros [_ H]. destruct H as (c & Hc & Hf); [discriminate|].
  vm_compute in Hc. injection Hc as <-. discriminate Hf.
Qed.

Lemma send_update_request_filter_key_witness :
  Samples.sparse_row !! "host" = Some (Some "web01") /\ "web01" <> "" /\
  exists f d,
    CmdbOutcomes.submissions
      (trace (UpdateCmdb.send_update_request (Samples.cmdb_api [10] [])
                "Hostname" Samples.sparse_row Samples.s0).2)
      = CmdbOutcomes.submissions (trace Samples.s0) ++ [(f, d)]
    /\ map UpdateCmdb.value f = [Some "web01"]
    /\ (upper "Hostname" = "HOSTNAME" -> CmdbOutcomes.keyed_on f "hostname")
    /\ (upper "Hostname" <> "HOSTNAME" -> CmdbOutcomes.keyed_on f "ipAddress").
Proof.
  split; [reflexivity|]. split; [discriminate|].
  apply (send_update_request_filter_key (Samples.cmdb_api [10] [])
           "Hostname" Samples.sparse_row "web01" Samples.s0);
    [reflexivity | discriminate].
Defined.

(** ** update_cmdb.py: the batch loop *)

Section CmdbLoop.
Import UpdateCmdb CmdbOutcomes.
Context {W : Type} (api : UpdateCmdb.Api W).

Lemma count_length (os : list bool) :
  (count true os + count false os = length os)%nat.
Proof.
  unfold count. induction os as [|o os IH]; [reflexivity|].
  rewrite !filter_cons. destruct o; repeat case_decide; try discriminate;
    simpl in *; lia.
Qed.

Lemma count_cons (b o : bool) (os : list bool) :
  count b (o :: os) = ((if bool_decide (o = b) then 1 else 0) + count b os)%nat.
Proof.
  unfold count. case_bool_decide.
  - now rewrite filter_cons_True.
  - now rewrite filter_cons_False.
Qed.

(** One turn of the loop: whatever the row and whatever the service
    answers, the body returns, with one counter incremented and one
    outcome line printed. *)
Lemma update_one_run (network_type : string) (sc fc : nat)
    (item : row) (s : st W event) :
  exists (b : bool) s',
    update_one api network_type (sc, fc) item s
      = (Ok (if b then (S sc, fc) else (sc, S fc)), s')
    /\ outcomes (trace s') = outcomes (trace s) ++ [b].
Proof.
  unfold update_one, try_except, bind, call_send_update_request.
  destruct (bool_decide (is_Some (rest item))).
  { exists false. eexists. split; [reflexivity|].
    simpl. rewrite outcomes_app. reflexivity. }
  destruct (contains (cells item) "self").
  { exists false. eexists. split; [reflexivity|].
    simpl. rewrite outcomes_app. reflexivity. }
  rewrite send_update_request_run.
  unfold subscript.
  destruct (cells item !! "host") as [host|] eqn:Hh.
  2:{ exists false. eexists. split; [reflexivity|].
      simpl. now rewrite outcomes_app. }
  destruct (host_given host).
  2:{ exists false. eexists. split; [reflexivity|].
      simpl. now rewrite outcomes_app. }
  cbv zeta.
  destruct (update_hosts_cmdb api _ _ (world s)) as [[j|ex] w'].
  - exists true. eexists. split; [reflexivity|].
    simpl. rewrite !outcomes_app. simpl. now rewrite app_nil_r.
  - exists false. eexists. split; [reflexivity|].
    simpl. rewrite !outcomes_app. simpl.
    destruct (is_rsapi_error ex); simpl; now rewrite ?app_nil_r.
Qed.

(** The loop of [__init__] over any rows and from any counters. *)
Lemma update_loop_run (network_type : string)
    (rows : list row) (sc fc : nat) (s : st W event) :
  exists os s',
    for_fold rows (update_one api network_type) (sc, fc) s
      = (Ok ((sc + count true os)%nat, (fc + count false os)%nat), s')
    /\ outcomes (trace s') = outcomes (trace s) ++ os
    /\ length os = length rows.
Proof.
  revert sc fc s. induction rows as [|item rows IH]; intros sc fc s.
  - exists [], s. simpl. unfold ret, count. simpl.
    rewrite !Nat.add_0_r, app_nil_r. auto.
  - cbn [for_fold]. unfold bind at 1.
    destruct (update_one_run network_type sc fc item s) as (b & s1 & E & Ho).
    rewrite E. destruct b.
    + destruct (IH (S sc) fc s1) as (os & s' & E' & Ho' & Hl).
      exists (true :: os), s'. rewrite E', !count_cons. simpl.
      split; [f_equal; f_equal; f_equal; lia|].
      split; [|now rewrite Hl].
      rewrite Ho', Ho, <- app_assoc. reflexivity.
    + destruct (IH sc (S fc) s1) as (os & s' & E' & Ho' & Hl).
      exists (false :: os), s'. rewrite E', !count_cons. simpl.
      split; [f_equal; f_equal; f_equal; lia|].
      split; [|now rewrite Hl].
      rewrite Ho', Ho, <- app_assoc. reflexivity.
Qed.

(** An input file without data rows: the tool reports the count and
    leaves with status 1 before any update is requested. *)
Lemma update_rows_empty (network_type cmdb_csv_filename : string)
    (s : st W event) (w' : W) :
  csv_DictReader api cmdb_csv_filename (world s) = (Returns [], w') ->
  update_rows api network_type cmdb_csv_filename s =
  (SysExit 1,
   St w' (trace s ++ [Print ReadingCsv; ReadCsv cmdb_csv_filename;
                      Print (ItemsFound 0); Print Exiting])).
Proof.
  intros H. unfold update_rows, bind, emit, read_csv_file, api_call. simpl.
  rewrite H. simpl. unfold sys_exit. now rewrite <- !app_assoc.
Qed.

End CmdbLoop.

(** ** Identity resolution *)

Section Identity.

Lemma entry_id_getitem (client : pyobj) (z : Z) :
  entry_id client = Some z -> getitem client "id" = Ok (PInt z).
Proof.
  unfold entry_id. destruct (getitem client "id") as [[]| |]; congruence.
Qed.

Lemma entry_ids_cons (client : pyobj) (clients : list pyobj) (ids : list Z) :
  entry_ids (client :: clients) = Some ids ->
  exists z ids', ids = z :: ids' /\ entry_id client = Some z
                 /\ entry_ids clients = Some ids'.
Proof.
  unfold entry_ids. simpl. intros H.
  destruct (entry_id client) as [z|]; [|discriminate].
  destruct (mapM entry_id clients) as [ids'|]; [|discriminate].
  simpl in H. injection H as <-. eauto.
Qed.

Lemma elem_of_cons_bool (c z : Z) (ids : list Z) :
  bool_decide (c ∈ z :: ids) = (z =? c) || bool_decide (c ∈ ids).
Proof.
  destruct (Z.eqb_spec z c) as [->|Hne]; simpl.
  - apply bool_decide_eq_true. left.
  - apply bool_decide_ext. rewrite elem_of_cons. naive_solver.
Qed.

(** The loop of the tag tool finds the identity exactly when it is among
    the identifiers of the entries it was given. *)
Lemma validate_loop_ids (clients : list pyobj) (ids : list Z) (c : Z)
    (validity : bool) :
  entry_ids clients = Some ids ->
  ImportTags.validate_loop clients c validity
  = Ok (validity || bool_decide (c ∈ ids)).
Proof.
  revert ids validity. induction clients as [|client clients IH];
    intros ids validity H.
  - injection H as <-. simpl. now rewrite orb_false_r.
  - apply entry_ids_cons in H as (z & ids' & -> & Hz & H').
    simpl. rewrite (entry_id_getitem _ _ Hz), (IH _ _ H').
    rewrite elem_of_cons_bool. simpl.
    destruct (z =? c), validity; reflexivity.
Qed.

(** The same for the list of identifiers the CMDB tool collects. *)
Lemma client_ids_ids (clients : list pyobj) (ids : list Z) :
  entry_ids clients = Some ids ->
  UpdateCmdb.client_ids clients = Ok (map PInt ids).
Proof.
  revert ids. induction clients as [|client clients IH]; intros ids H.
  - injection H as <-. reflexivity.
  - apply entry_ids_cons in H as (z & ids' & -> & Hz & H').
    simpl. now rewrite (entry_id_getitem _ _ Hz), (IH _ H').
Qed.

Lemma existsb_eq_int (ids : list Z) (c : Z) :
  existsb (fun i => eq_int i c) (map PInt ids) = bool_decide (c ∈ ids).
Proof.
  induction ids as [|z ids IH]; [reflexivity|].
  simpl. now rewrite IH, elem_of_cons_bool.
Qed.

Lemma listed_ids_shape (page : pyobj) (ids : list Z) :
  listed_ids page = Some ids ->
  exists embedded clients,
    getitem page "_embedded" = Ok embedded
    /\ getitem embedded "clients" = Ok (PList clients)
    /\ entry_ids clients = Some ids.
Proof.
  unfold listed_ids. intros H.
  destruct (getitem page "_embedded") as [embedded| |] eqn:He;
    try discriminate.
  destruct (getitem embedded "clients") as [[]| |] eqn:Hc; try discriminate.
  eauto.
Qed.

Lemma listed_ids_clients_page (ids : list Z) :
  listed_ids (clients_page ids) = Some ids.
Proof.
  unfold listed_ids, clients_page. simpl. unfold entry_ids.
  induction ids as [|z ids IH]; [reflexivity|].
  simpl. rewrite IH. reflexivity.
Qed.

End Identity.

Section TagIdentity.
Import ImportTags TagOutcomes.
Context {W : Type} (api : ImportTags.Api W).

(** Validation of a configured identity against the page the listing
    returns for [page_size=300, page_number=0]. *)
Lemma validate_client_id_run (c : Z) (s : st W event) (page : pyobj)
    (w' : W) (ids : list Z) :
  get_clients api 300 0 (world s) = (Returns page, w') ->
  listed_ids page = Some ids ->
  validate_client_id api c s
  = (Ok (bool_decide (c ∈ ids)), St w' (trace s ++ [GetClients 300 0])).
Proof.
  intros Hget Hids.
  apply listed_ids_shape in Hids as (embedded & clients & He & Hc & Hids).
  unfold validate_client_id, bind, try_except, api_call, lift.
  rewrite Hget. simpl. rewrite He, Hc. simpl.
  now rewrite (validate_loop_ids _ _ c false Hids).
Qed.

Lemma main_explicit_run (c : Z) (s : st W event) (page : pyobj)
    (w' : W) (ids : list Z) :
  get_clients api 300 0 (world s) = (Returns page, w') ->
  listed_ids page = Some ids ->
  main api (Some c) s =
  if bool_decide (c ∈ ids)
  then import_rows api (PInt c) (St w' (trace s ++ [GetClients 300 0]))
  else (SysExit 1,
        St w' (trace s ++ [GetClients 300 0; Print (UnableValidate c);
                           Print Exiting])).
Proof.
  intros Hget Hids. unfold main. unfold bind at 1. unfold bind at 1.
  rewrite (validate_client_id_run c s page w' ids Hget Hids).
  destruct (bool_decide (c ∈ ids)); [reflexivity|].
  unfold bind, emit, sys_exit. simpl. now rewrite <- !app_assoc.
Qed.

End TagIdentity.

Section CmdbIdentity.
Import UpdateCmdb CmdbOutcomes.
Context {W : Type} (api : UpdateCmdb.Api W).

Lemma init_explicit_run (config : config) (c : Z) (s : st W event)
    (ids : list Z) :
  client_id config = Some c ->
  entry_ids (my_clients api) = Some ids ->
  CmdbUpdateTool_init api config s =
  if bool_decide (c ∈ ids)
  then update_rows api (network_type config) (cmdb_csv_filename config)
         (St (world s) (trace s ++ [SetDefaultClientId (PInt c)]))
  else (SysExit 1,
        St (world s) (trace s ++ [Print (UnableValidate c); Print ExitingDot])).
Proof.
  intros Hc Hids. unfold CmdbUpdateTool_init. rewrite Hc.
  unfold bind at 1. unfold try_except, validate_client_id.
  unfold bind at 1. unfold bind at 1. unfold lift.
  rewrite (client_ids_ids _ _ Hids), existsb_eq_int.
  destruct (bool_decide (c ∈ ids)).
  - unfold ret. unfold bind at 1. unfold api_call. reflexivity.
  - unfold raise. simpl. unfold bind, emit, sys_exit. simpl.
    now rewrite <- !app_assoc.
Qed.

(** Without a configured identity the tool takes the identifier of the
    first entry of [my_clients]. *)
Lemma get_client_id_first (client : pyobj) (rest : list pyobj) (z : Z)
    (s : st W event) :
  my_clients api = client :: rest ->
  entry_id client = Some z ->
  get_client_id api s = (Ok (PInt z), s).
Proof.
  intros Hm Hz. unfold get_client_id, bind, lift. rewrite Hm. simpl.
  now rewrite (entry_id_getitem _ _ Hz).
Qed.

End CmdbIdentity.

(** ** import_tags.py: row mapping and the batch loop *)

Section TagRows.
Import ImportTags TagOutcomes.
Context {W : Type} (api : ImportTags.Api W).

Lemma tag_outcomes_app (t u : list event) :
  outcomes (t ++ u) = outcomes t ++ outcomes u.
Proof. apply omap_app. Qed.

Lemma tag_submissions_app (t u : list event) :
  submissions (t ++ u) = submissions t ++ submissions u.
Proof. apply omap_app. Qed.

(** What one run of [create_tag] does, by cases on the row. *)
Lemma create_tag_run (cid : pyobj) (tag_info : gmap string string)
    (s : st W event) :
  create_tag api cid tag_info s =
  if contains tag_info ""
  then (Raise (ValueError "Fields cannot be blank."), s)
  else
    match tag_info !! "tag_type" with
    | None => (Raise (KeyError "tag_type"), s)
    | Some t =>
        if negb (existsb (String.eqb t) acceptable_types)
        then (Raise (ValueError invalid_type_msg), s)
        else
          match tag_info !! "name" with
          | None => (Raise (KeyError "name"), s)
          | Some n =>
          match tag_info !! "desc" with
          | None => (Raise (KeyError "desc"), s)
          | Some d =>
          match tag_info !! "owner" with
          | None => (Raise (KeyError "owner"), s)
          | Some o =>
          match tag_info !! "color" with
          | None => (Raise (KeyError "color"), s)
          | Some c =>
          match tag_info !! "locked" with
          | None => (Raise (KeyError "locked"), s)
          | Some l =>
              let '(r, w') := tags_create api cid t n d o c l (world s) in
              (res_of_reply r, St w' (trace s ++ [TagsCreate cid t n d o c l]))
          end end end end end
    end.
Proof.
  unfold create_tag. destruct (contains tag_info ""); [reflexivity|].
  unfold bind at 1. unfold subscript at 1.
  destruct (tag_info !! "tag_type") as [t|] eqn:Ht; [|reflexivity].
  unfold ret at 1.
  destruct (negb (existsb (String.eqb t) acceptable_types)); [reflexivity|].
  unfold bind, subscript. rewrite Ht. unfold ret at 1.
  destruct (tag_info !! "name") as [n|]; [|reflexivity]. unfold ret at 1.
  destruct (tag_info !! "desc") as [d|]; [|reflexivity]. unfold ret at 1.
  destruct (tag_info !! "owner") as [o|]; [|reflexivity]. unfold ret at 1.
  destruct (tag_info !! "color") as [c|]; [|reflexivity]. unfold ret at 1.
  destruct (tag_info !! "locked") as [l|]; [|reflexivity]. unfold ret at 1.
  unfold try_except, api_call.
  destruct (tags_create api cid t n d o c l (world s)) as [[i|e] w']; simpl;
    [reflexivity|].
  destruct (is_RequestFailed e); reflexivity.
Qed.

(** A column with a blank name is what the blank check refuses; nothing
    is submitted. *)
Lemma create_tag_blank_column (cid : pyobj) (tag_info : gmap string string)
    (s : st W event) :
  is_Some (tag_info !! "") ->
  create_tag api cid tag_info s =
  (Raise (ValueError "Fields cannot be blank."), s).
Proof.
  intros H. rewrite create_tag_run. unfold contains.
  now rewrite bool_decide_eq_true_2.
Qed.

(** One turn of the loop of [main], for a row with the six columns and a
    service that fails as documented. *)
Lemma create_one_run (cid : pyobj) (item : gmap string string)
    (s : st W event) :
  has_tag_columns item -> raises_as_documented api ->
  exists (b : bool) s',
    create_one api cid item s = (Ok tt, s')
    /\ outcomes (trace s') = outcomes (trace s) ++ [b].
Proof.
  intros Hcols Hdoc. unfold has_tag_columns in Hcols.
  rewrite !Forall_cons in Hcols.
  destruct Hcols as ([t Ht] & [n Hn] & [d Hd] & [o Ho] & [c Hc] & [l Hl] & _).
  unfold create_one. unfold bind at 1. unfold subscript at 1.
  rewrite Hn. unfold ret at 1. unfold bind at 1. unfold emit at 1.
  unfold try_except. unfold bind at 1.
  rewrite create_tag_run. cbn [world trace].
  destruct (contains item "").
  { exists false. eexists. split; [reflexivity|].
    simpl. rewrite !tag_outcomes_app. simpl. now rewrite ?app_nil_r. }
  rewrite Ht.
  destruct (negb (existsb (String.eqb t) acceptable_types)).
  { exists false. eexists. split; [reflexivity|].
    simpl. rewrite !tag_outcomes_app. simpl. now rewrite ?app_nil_r. }
  rewrite Hn, Hd, Ho, Hc, Hl.
  destruct (tags_create api cid t n d o c l (world s)) as [[i|e] w'] eqn:E.
  - exists true. eexists. unfold subscript, bind. rewrite Hn.
    split; [reflexivity|].
    simpl. rewrite !tag_outcomes_app. simpl. now rewrite ?app_nil_r.
  - specialize (Hdoc _ _ _ _ _ _ _ _ _ _ E).
    exists false. simpl.
    destruct (is_RequestFailed e) eqn:Hrf.
    + eexists. split; [reflexivity|].
      simpl. rewrite !tag_outcomes_app. simpl. now rewrite ?app_nil_r.
    + simpl in Hdoc. rewrite Hdoc. eexists. split; [reflexivity|].
      simpl. rewrite !tag_outcomes_app. simpl. now rewrite ?app_nil_r.
Qed.

Lemma create_loop_run (cid : pyobj) (rows : list (gmap string string))
    (s : st W event) :
  Forall has_tag_columns rows -> raises_as_documented api ->
  loop_isolates api cid rows s.
Proof.
  intros Hrows Hdoc. revert s. unfold loop_isolates.
  induction Hrows as [|item rows Hitem Hrows IH]; intros s.
  - exists s, []. simpl. now rewrite app_nil_r.
  - cbn [for_each]. unfold bind at 1.
    destruct (create_one_run cid item s Hitem Hdoc) as (b & s1 & E & Ho).
    rewrite E. destruct (IH s1) as (s' & os & E' & Ho' & Hl).
    exists s', (b :: os). rewrite E'. split; [reflexivity|].
    split; [|simpl; now rewrite Hl].
    rewrite Ho', Ho, <- app_assoc. reflexivity.
Qed.

(** An input file without data rows: the loop has nothing to do and the
    script ends normally. *)
Lemma import_rows_empty (cid : pyobj) (s : st W event) (w' : W) :
  csv_DictReader api TAG_CSV_FILENAME (world s) = (Returns [], w') ->
  import_rows api cid s =
  (Ok tt,
   St w' (trace s ++ [ReadCsv TAG_CSV_FILENAME; Print Blank; Print Blank;
                      Print Done])).
Proof.
  intros H. unfold import_rows, bind, read_csv_file, api_call.
  rewrite H. simpl. unfold emit. simpl. now rewrite <- !app_assoc.
Qed.

End TagRows.

(** ** The claims on the tag tool *)

Section TagClaims.
Import ImportTags TagOutcomes.
Context {W : Type} (api : ImportTags.Api W).

(** C1, at a record whose description cell is blank: the blank check of
    [create_tag] looks at the column names, not at the cells, so the
    record passes it and is submitted to the tag-creation operation with
    its blank description. *)
Theorem create_tag_blank_desc_is_submitted (cid : pyobj) (s : st W event) :
  create_tag api cid (Samples.tag_row "CUSTOM" "web" "") s =
  let '(r, w') :=
    tags_create api cid "CUSTOM" "web" "" "1" "#648d9f" "false" (world s) in
  (res_of_reply r,
   St w' (trace s ++
          [TagsCreate cid "CUSTOM" "web" "" "1" "#648d9f" "false"])).
Proof. rewrite create_tag_run. reflexivity. Qed.

(** C7, on the tag tool: without a configured identity the listing is
    queried once, for page 0 of size 1, but the identifier is then looked
    up on the page itself and not on its first entry; on a page as
    [validate_client_id] reads it, with the entries under [_embedded] and
    no [id] of its own, the lookup raises [KeyError]. *)
Theorem get_client_id_reads_page_not_entry (s : st W event)
    (d : list (string * pyobj)) (w' : W) :
  get_clients api 1 0 (world s) = (Returns (PDict d), w') ->
  assoc "id" d = None ->
  get_client_id api s
  = (Raise (KeyError "id"), St w' (trace s ++ [GetClients 1 0])).
Proof.
  intros Hget Hd. unfold get_client_id, bind, try_except, api_call, lift.
  rewrite Hget. simpl. now rewrite Hd.
Qed.

(** C10. Validation of a configured identity looks only at the page the
    listing returns for [page_size=300, page_number=0], which holds at
    most 300 entries: an identity that is not on that page is found
    invalid and the run ends with status 1 after this one query,
    wherever else in the full list the identity may be. *)
Theorem validation_sees_first_page_only (c : Z) (s : st W event)
    (all : list Z) (page : pyobj) (w' : W) :
  get_clients api 300 0 (world s) = (Returns page, w') ->
  listed_ids page = Some (page_of all 300 0) ->
  c ∉ page_of all 300 0 ->
  (length (page_of all 300 0) <= 300)%nat
  /\ validate_client_id api c s
     = (Ok false, St w' (trace s ++ [GetClients 300 0]))
  /\ main api (Some c) s
     = (SysExit 1,
        St w' (trace s ++ [GetClients 300 0; Print (UnableValidate c);
                           Print Exiting])).
Proof.
  intros Hget Hids Hc. split; [|split].
  - unfold page_of. rewrite length_take. lia.
  - rewrite (validate_client_id_run api c s page w' _ Hget Hids).
    now rewrite bool_decide_eq_false_2.
  - rewrite (main_explicit_run api c s page w' _ Hget Hids).
    now rewrite bool_decide_eq_false_2.
Qed.

End TagClaims.

Lemma get_client_id_reads_page_not_entry_witness :
  ImportTags.get_client_id (Samples.tag_api [10; 20; 30] []) Samples.s0
  = (Raise (KeyError "id"), St tt [ImportTags.GetClients 1 0]).
Proof.
  apply (get_client_id_reads_page_not_entry (Samples.tag_api [10; 20; 30] [])
           Samples.s0
           [("_embedded",
             PDict [("clients", PList [PDict [("id", PInt 10)]])])]
           tt); reflexivity.
Defined.

Lemma validation_sees_first_page_only_witness :
  301 ∈ seqZ 1 301
  /\ ImportTags.main (Samples.tag_api (seqZ 1 301) []) (Some 301) Samples.s0
     = (SysExit 1,
        St tt [ImportTags.GetClients 300 0;
               ImportTags.Print (ImportTags.UnableValidate 301);
               ImportTags.Print ImportTags.Exiting]).
Proof.
  split.
  - apply elem_of_seqZ. lia.
  - apply (validation_sees_first_page_only (Samples.tag_api (seqZ 1 301) [])
             301 Samples.s0 (seqZ 1 301)
             (clients_page (page_of (seqZ 1 301) 300 0)) tt).
    + reflexivity.
    + apply listed_ids_clients_page.
    + apply (bool_decide_unpack _). vm_compute. reflexivity.
Defined.

(** ** The claims on both tools *)

(** C3, as stated, fails on the tag tool for a file without the name
    column: the first record raises [KeyError], which the loop does not
    catch. *)
Lemma tag_loop_aborts_on_missing_column :
  ~ TagOutcomes.loop_isolates (Samples.tag_api [10] []) (PInt 10)
      [Samples.nameless_row] Samples.s0.
Proof.
  intros (s' & os & E & _). vm_compute in E. discriminate E.
Qed.

(** C3, amended. In the CMDB tool the loop runs through every sequence
    of records: each record ends in exactly one outcome, whatever fails,
    and the two counters add up to the number of records. In the tag
    tool, which keeps no counters and catches [RequestFailed] and
    [ValueError] only, the loop runs through the records with one outcome
    each when every record has the six tag columns and the tag-creation
    operation fails only with these two exceptions. *)
Theorem batch_loops_isolate_failures :
  (forall W (api : UpdateCmdb.Api W) network_type rows s,
     exists success_counter failure_counter os s',
       for_fold rows (UpdateCmdb.update_one api network_type) (0, 0)%nat s
         = (Ok (success_counter, failure_counter), s')
       /\ CmdbOutcomes.outcomes (trace s')
          = CmdbOutcomes.outcomes (trace s) ++ os
       /\ length os = length rows
       /\ success_counter = CmdbOutcomes.count true os
       /\ failure_counter = CmdbOutcomes.count false os
       /\ (success_counter + failure_counter = length rows)%nat)
  /\ (forall W (api : ImportTags.Api W) cid rows s,
        Forall TagOutcomes.has_tag_columns rows ->
        TagOutcomes.raises_as_documented api ->
        TagOutcomes.loop_isolates api cid rows s).
Proof.
  split.
  - intros W api network_type rows s.
    destruct (update_loop_run api network_type rows 0 0 s)
      as (os & s' & E & Ho & Hl).
    exists (CmdbOutcomes.count true os), (CmdbOutcomes.count false os), os, s'.
    rewrite count_length. simpl in E. auto 10.
  - intros W api cid rows s. apply create_loop_run.
Qed.

Lemma batch_loops_isolate_failures_witness :
  TagOutcomes.loop_isolates (Samples.tag_api [10] []) (PInt 10)
    [Samples.tag_row "CUSTOM" "web" "servers";
     Samples.tag_row "BOGUS" "db" "databases";
     Samples.tag_row "CUSTOM" "dup" "again"] Samples.s0.
Proof.
  apply (proj2 batch_loops_isolate_failures).
  - unfold TagOutcomes.has_tag_columns.
    repeat first [ eexists; reflexivity | constructor ].
  - intros cid t n d o c l w e w' H. simpl in H.
    destruct (String.eqb n "dup"); inversion H. reflexivity.
Defined.

(** C8. A configured identity is looked up, by equality of identifiers,
    in the list of client entries: the page of the listing in the tag
    tool, [my_clients] in the CMDB tool. When it is there, the run goes on
    to the csv file under exactly that identity; when it is not, the run
    ends with status 1 and no file has been read and nothing submitted. *)
Theorem explicit_identity_is_checked :
  (forall W (api : ImportTags.Api W) c s page w' ids,
     ImportTags.get_clients api 300 0 (world s) = (Returns page, w') ->
     listed_ids page = Some ids ->
     (c ∈ ids ->
        ImportTags.main api (Some c) s
        = ImportTags.import_rows api (PInt c)
            (St w' (trace s ++ [ImportTags.GetClients 300 0])))
     /\ (c ∉ ids ->
        exists s',
          ImportTags.main api (Some c) s = (SysExit 1, s')
          /\ TagOutcomes.reads (trace s') = TagOutcomes.reads (trace s)
          /\ TagOutcomes.submissions (trace s')
             = TagOutcomes.submissions (trace s)))
  /\ (forall W (api : UpdateCmdb.Api W) config c s ids,
        UpdateCmdb.client_id config = Some c ->
        entry_ids (UpdateCmdb.my_clients api) = Some ids ->
        (c ∈ ids ->
           UpdateCmdb.CmdbUpdateTool_init api config s
           = UpdateCmdb.update_rows api (UpdateCmdb.network_type config)
               (UpdateCmdb.cmdb_csv_filename config)
               (St (world s)
                  (trace s ++ [UpdateCmdb.SetDefaultClientId (PInt c)])))
        /\ (c ∉ ids ->
           exists s',
             UpdateCmdb.CmdbUpdateTool_init api config s = (SysExit 1, s')
             /\ CmdbOutcomes.reads (trace s') = CmdbOutcomes.reads (trace s)
             /\ CmdbOutcomes.submissions (trace s')
                = CmdbOutcomes.submissions (trace s))).
Proof.
  split.
  - intros W api c s page w' ids Hget Hids.
    rewrite (main_explicit_run api c s page w' ids Hget Hids). split; intros Hc.
    + now rewrite bool_decide_eq_true_2.
    + rewrite bool_decide_eq_false_2 by assumption.
      eexists. split; [reflexivity|]. simpl.
      unfold TagOutcomes.reads, TagOutcomes.submissions.
      rewrite !omap_app. simpl. now rewrite !app_nil_r.
  - intros W api config c s ids Hcfg Hids.
    rewrite (init_explicit_run api config c s ids Hcfg Hids). split; intros Hc.
    + now rewrite bool_decide_eq_true_2.
    + rewrite bool_decide_eq_false_2 by assumption.
      eexists. split; [reflexivity|]. simpl.
      unfold CmdbOutcomes.reads, CmdbOutcomes.submissions.
      rewrite !omap_app. simpl. now rewrite !app_nil_r.
Qed.

Lemma explicit_identity_is_checked_witness :
  ImportTags.main (Samples.tag_api [10; 20; 30] []) (Some 20) Samples.s0
  = ImportTags.import_rows (Samples.tag_api [10; 20; 30] []) (PInt 20)
      (St tt [ImportTags.GetClients 300 0])
  /\ exists s',
       ImportTags.main (Samples.tag_api [10; 20; 30] []) (Some 99) Samples.s0
       = (SysExit 1, s')
       /\ TagOutcomes.reads (trace s') = []
       /\ TagOutcomes.submissions (trace s') = [].
Proof.
  split.
  - apply (proj1 (proj1 explicit_identity_is_checked unit
              (Samples.tag_api [10; 20; 30] []) 20 Samples.s0
              (clients_page [10; 20; 30]) tt [10; 20; 30]
              eq_refl (listed_ids_clients_page _))).
    apply (bool_decide_unpack _). vm_compute. reflexivity.
  - apply (proj2 (proj1 explicit_identity_is_checked unit
              (Samples.tag_api [10; 20; 30] []) 99 Samples.s0
              (clients_page [10; 20; 30]) tt [10; 20; 30]
              eq_refl (listed_ids_clients_page _))).
    apply (bool_decide_unpack _). vm_compute. reflexivity.
Defined.

(** C9, as stated, fails on the tag tool: with a file without data rows
    the script ends normally, with status 0. *)
Lemma tag_tool_accepts_empty_input :
  ~ TagOutcomes.empty_input_is_fatal (Samples.tag_api [10; 20; 30] [])
      (Some 20) Samples.s0.
Proof.
  intros H. apply (H tt); [reflexivity|]. vm_compute. reflexivity.
Qed.

(** C9, amended. In the CMDB tool an input file without data rows is
    fatal: the count is reported and the process leaves with status 1
    before any record is processed. The tag tool has no such check: its
    loop has nothing to do and the script ends normally with status 0. *)
Theorem empty_input_per_tool :
  (forall W (api : UpdateCmdb.Api W) network_type filename s w',
     UpdateCmdb.csv_DictReader api filename (world s) = (Returns [], w') ->
     UpdateCmdb.update_rows api network_type filename s
     = (SysExit 1,
        St w' (trace s ++
               [UpdateCmdb.Print UpdateCmdb.ReadingCsv;
                UpdateCmdb.ReadCsv filename;
                UpdateCmdb.Print (UpdateCmdb.ItemsFound 0);
                UpdateCmdb.Print UpdateCmdb.Exiting]))
     /\ exit_status (UpdateCmdb.update_rows api network_type filename s).1 = 1)
  /\ (forall W (api : ImportTags.Api W) cid s w',
        ImportTags.csv_DictReader api ImportTags.TAG_CSV_FILENAME (world s)
        = (Returns [], w') ->
        ImportTags.import_rows api cid s
        = (Ok tt,
           St w' (trace s ++
                  [ImportTags.ReadCsv ImportTags.TAG_CSV_FILENAME;
                   ImportTags.Print ImportTags.Blank;
                   ImportTags.Print ImportTags.Blank;
                   ImportTags.Print ImportTags.Done]))
        /\ exit_status (ImportTags.import_rows api cid s).1 = 0).
Proof.
  split.
  - intros W api network_type filename s w' H.
    rewrite (update_rows_empty api network_type filename s w' H). auto.
  - intros W api cid s w' H.
    rewrite (import_rows_empty api cid s w' H). auto.
Qed.

Lemma empty_input_per_tool_witness :
  exit_status
    (UpdateCmdb.update_rows (Samples.cmdb_api [10] []) "IP" "cmdb.csv"
       Samples.s0).1 = 1
  /\ exit_status
       (ImportTags.import_rows (Samples.tag_api [10] []) (PInt 10)
          Samples.s0).1 = 0.
Proof.
  split.
  - apply (proj1 empty_input_per_tool unit (Samples.cmdb_api [10] []) "IP"
             "cmdb.csv" Samples.s0 tt eq_refl).
  - apply (proj2 empty_input_per_tool unit (Samples.tag_api [10] [])
             (PInt 10) Samples.s0 tt eq_refl).
Defined.

(** ** Worked runs *)

(** Of the 25 optional columns of [sparse_row] the three filled ones are
    sent. *)
Example sparse_row_update_dict :
  UpdateCmdb.update_dict (delete "host" Samples.sparse_row)
  = Samples.texts
      [("os", "Linux"); ("location", "Berlin"); ("asset_tag", "A-17")].
Proof. vm_compute. reflexivity. Qed.

(** Three CMDB records, the second without host text and the third
    unknown to the platform: one success and two failures are counted. *)
Example cmdb_run_of_three :
  let rows := [Samples.text_row [("host", "web01"); ("os", "Linux")];
               Samples.text_row [("host", ""); ("os", "Linux")];
               Samples.text_row [("host", "ghost"); ("os", "")]] in
  let r := UpdateCmdb.CmdbUpdateTool_init (Samples.cmdb_api [10; 20; 30] rows)
             (Samples.sample_config "hostname" (Some 20)) Samples.s0 in
  r.1 = Ok tt
  /\ CmdbOutcomes.outcomes (trace r.2) = [true; false; false]
  /\ drop 13 (trace r.2)
     = [UpdateCmdb.Print (UpdateCmdb.SummarySuccess 1 3);
        UpdateCmdb.Print (UpdateCmdb.SummaryFailure 2 3)]
  /\ CmdbOutcomes.submissions (trace r.2)
     = [([UpdateCmdb.Criterion "hostname" false "EXACT" (Some "web01")],
         {[ "os" := Some "Linux" ]});
        ([UpdateCmdb.Criterion "hostname" false "EXACT" (Some "ghost")], ∅)].
Proof. vm_compute. repeat split. Qed.

(** Three tag records, the second with an unknown tag type: two tags are
    created and the failure is reported with the list of valid types. *)
Example tag_run_of_three :
  let rows := [Samples.tag_row "CUSTOM" "web" "servers";
               Samples.tag_row "BOGUS" "db" "databases";
               Samples.tag_row "CMDB" "lab" "lab hosts"] in
  let r := ImportTags.main (Samples.tag_api [10; 20; 30] rows) (Some 20)
             Samples.s0 in
  r.1 = Ok tt
  /\ TagOutcomes.outcomes (trace r.2) = [true; false; true]
  /\ trace r.2 !! 7%nat
     = Some (ImportTags.Print
               (ImportTags.UnableCreateVE
                  (ValueError ImportTags.invalid_type_msg)))
  /\ length (TagOutcomes.submissions (trace r.2)) = 2%nat.
Proof.
  vm_compute. repeat split.
Qed.

(** * Further properties *)

(** ** Reading the csv file *)



(** ** update_cmdb.py, further *)

Section CmdbMore.
Import UpdateCmdb CmdbOutcomes CmdbRun.
Context {W : Type} (api : UpdateCmdb.Api W).

Lemma update_dict_filter (kwargs : gmap string (option string)) :
  update_dict kwargs = filter (fun kv => kv.2 <> Some "") kwargs.
Proof.
  apply map_eq. intros k. apply option_eq. intros v.
  rewrite update_dict_lookup, map_lookup_filter_Some. reflexivity.
Qed.

(** X2. The sparse mapping never holds a blank text, is part of the
    row it was built from, and building it again from itself changes
    nothing. *)
Theorem update_dict_sparse_idempotent (kwargs : gmap string (option string)) :
  (forall k, update_dict kwargs !! k <> Some (Some ""))
  /\ update_dict kwargs ⊆ kwargs
  /\ update_dict (update_dict kwargs) = update_dict kwargs.
Proof.
  split; [|split].
  - intros k H. apply update_dict_lookup in H as [_ H]. now apply H.
  - rewrite update_dict_filter. apply map_filter_subseteq.
  - apply map_eq. intros k. apply option_eq. intros v.
    rewrite !update_dict_lookup. tauto.
Qed.

(** X3. A record with host text whose other cells are all blank is
    still sent: one request, with an empty mapping of fields. *)
Theorem send_update_request_all_blank (network_type : string)
    (kwargs : gmap string (option string)) (h : string) (s : st W event) :
  kwargs !! "host" = Some (Some h) -> h <> "" ->
  (forall k v, k <> "host" -> kwargs !! k = Some v -> v = Some "") ->
  submissions (trace (send_update_request api network_type kwargs s).2)
  = submissions (trace s) ++ [(search_filter network_type (Some h), ∅)].
Proof.
  intros Hh Hne Hblank.
  rewrite send_update_request_submissions, Hh. simpl.
  destruct (String.eqb_spec h ""); [contradiction|]. simpl.
  do 3 f_equal. apply map_eq. intros k. rewrite lookup_empty.
  apply eq_None_not_Some. intros [v Hv].
  apply update_dict_lookup in Hv as [Hv Hv'].
  destruct (decide (k = "host")) as [->|Hk].
  - now rewrite lookup_delete_eq in Hv.
  - rewrite lookup_delete_ne in Hv by congruence. eauto.
Qed.

(** X4. For a record with host text, [send_update_request] hands on
    what the bulk-update operation answers: its job identifier, or the
    very exception it raised; of these, the exceptions of the API client
    are printed once before they are raised again. *)
Theorem send_update_request_passes_reply (network_type : string)
    (kwargs : gmap string (option string)) (h : string) (s : st W event) :
  kwargs !! "host" = Some (Some h) -> h <> "" ->
  let f := search_filter network_type (Some h) in
  let d := update_dict (delete "host" kwargs) in
  let reply := update_hosts_cmdb api f d (world s) in
  let r := send_update_request api network_type kwargs s in
  r.1 = res_of_reply reply.1
  /\ world r.2 = reply.2
  /\ trace r.2
     = trace s ++ UpdateHostsCmdb f d ::
       match reply.1 with
       | Raises ex => if is_rsapi_error ex then [Print (SendEx ex)] else []
       | Returns _ => []
       end.
Proof.
  intros Hh Hne. cbv zeta. rewrite send_update_request_run, Hh. simpl.
  destruct (String.eqb_spec h ""); [contradiction|]. simpl.
  destruct (update_hosts_cmdb api _ _ (world s)) as [[j|ex] w']; simpl; auto.
Qed.

(** X19. A host cell that is blank, or that a short row does not have
    at all, is refused with the [ValueError] that reports the missing
    host; the state is unchanged and nothing is sent. *)
Theorem send_update_request_no_host_text (network_type : string)
    (kwargs : gmap string (option string)) (s : st W event) :
  kwargs !! "host" = Some (Some "") \/ kwargs !! "host" = Some None ->
  send_update_request api network_type kwargs s =
  (Raise (ValueError "There was no host provided for this row."), s).
Proof.
  intros [H|H]; rewrite send_update_request_run, H; reflexivity.
Qed.

(** One turn of the loop in full: the body returns, one counter is
    incremented, the requests sent are those of [request_of], and the
    success counter is the one incremented exactly when a request was
    sent and answered with a job. *)
Lemma update_one_full (network_type : string) (sc fc : nat)
    (item : row) (s : st W event) :
  exists (b : bool) s' mid,
    update_one api network_type (sc, fc) item s
      = (Ok (if b then (S sc, fc) else (sc, S fc)), s')
    /\ trace s' = trace s ++ mid
    /\ submissions mid = option_list (request_of network_type item)
    /\ (b = true
        <-> exists f d job_id w',
              request_of network_type item = Some (f, d)
              /\ update_hosts_cmdb api f d (world s) = (Returns job_id, w')).
Proof.
  unfold update_one, try_except, bind, call_send_update_request, request_of.
  cbv zeta.
  destruct (bool_decide (is_Some (rest item))).
  { exists false. eexists _, _. split; [reflexivity|]. simpl.
    split; [reflexivity|]. split; [reflexivity|].
    split; [discriminate|]. intros (f & d & j & w' & H & _). discriminate. }
  destruct (contains (cells item) "self").
  { exists false. eexists _, _. split; [reflexivity|]. simpl.
    split; [reflexivity|]. split; [reflexivity|].
    split; [discriminate|]. intros (f & d & j & w' & H & _). discriminate. }
  rewrite send_update_request_run. unfold subscript.
  destruct (cells item !! "host") as [host|] eqn:Hh; simpl.
  2:{ exists false. eexists _, _. split; [reflexivity|]. simpl.
      split; [reflexivity|]. split; [reflexivity|].
      split; [discriminate|]. intros (f & d & j & w' & H & _). discriminate. }
  destruct (host_given host); simpl.
  2:{ exists false. eexists _, _. split; [reflexivity|]. simpl.
      split; [reflexivity|]. split; [reflexivity|].
      split; [discriminate|]. intros (f & d & j & w' & H & _). discriminate. }
  destruct (update_hosts_cmdb api _ _ (world s)) as [[j|ex] w'] eqn:E; simpl.
  - exists true. eexists _, _. split; [reflexivity|]. simpl.
    split; [now rewrite <- app_assoc|]. split; [reflexivity|].
    split; [|reflexivity]. intros _. eauto 6.
  - exists false. eexists _, _. split; [reflexivity|]. simpl.
    split; [now rewrite <- app_assoc|].
    split; [destruct (is_rsapi_error ex); reflexivity|].
    split; [discriminate|].
    intros (f & d & j & w1 & H & H'). injection H as <- <-.
    rewrite E in H'. discriminate.
Qed.

(** What one turn of the loop sends. *)
Lemma update_one_submissions (network_type : string) (counters : nat * nat)
    (item : row) (s : st W event) :
  submissions (trace (update_one api network_type counters item s).2)
  = submissions (trace s) ++ option_list (request_of network_type item).
Proof.
  destruct counters as [sc fc].
  destruct (update_one_full network_type sc fc item s)
    as (b & s' & mid & E & Ht & Hs & _).
  rewrite E. simpl. now rewrite Ht, submissions_app, Hs.
Qed.

Lemma update_loop_submissions (network_type : string)
    (rows : list row) (counters : nat * nat) (s : st W event) :
  submissions
    (trace (for_fold rows (update_one api network_type) counters s).2)
  = submissions (trace s) ++ omap (request_of network_type) rows.
Proof.
  revert counters s. induction rows as [|item rows IH]; intros [sc fc] s.
  - simpl. now rewrite app_nil_r.
  - cbn [for_fold]. unfold bind at 1.
    pose proof (update_one_submissions network_type (sc, fc) item s) as Hs.
    destruct (update_one_run api network_type sc fc item s) as (b & s1 & E & _).
    rewrite E in Hs |- *. simpl in Hs. rewrite IH, Hs, <- app_assoc.
    f_equal. simpl. destruct (request_of network_type item); reflexivity.
Qed.

(** X5. Whatever the service answers, the loop of [__init__] sends the
    requests of the rows in file order: one for every row that has host
    text, no cells beyond the header and no column called [self], none
    for the other rows. *)
Theorem update_loop_requests_in_order (network_type : string)
    (rows : list row) (s : st W event) :
  submissions
    (trace (for_fold rows (update_one api network_type) (0, 0)%nat s).2)
  = submissions (trace s) ++ omap (request_of network_type) rows.
Proof. apply update_loop_submissions. Qed.

(** X6. One turn of the loop always returns with exactly one of the two
    counters incremented: the success counter when a request was sent
    for the record and the bulk-update operation returned a job, the
    failure counter in every other case. *)
Theorem update_one_success_iff (network_type : string) (sc fc : nat)
    (item : row) (s : st W event) :
  exists (b : bool) s',
    update_one api network_type (sc, fc) item s
      = (Ok (if b then (S sc, fc) else (sc, S fc)), s')
    /\ (b = true
        <-> exists f d job_id w',
              request_of network_type item = Some (f, d)
              /\ update_hosts_cmdb api f d (world s) = (Returns job_id, w')).
Proof.
  destruct (update_one_full network_type sc fc item s)
    as (b & s' & mid & E & _ & _ & Hb).
  exists b, s'. auto.
Qed.

(** X18. A row longer than the header cannot be unpacked into keyword
    arguments: the call fails with [TypeError] before
    [send_update_request] is entered, the loop reports it and counts a
    failure, and no request is sent for the row, whatever its host. *)
Theorem update_one_long_row (network_type : string) (sc fc : nat)
    (item : row) (s : st W event) :
  is_Some (rest item) ->
  update_one api network_type (sc, fc) item s
  = (Ok (sc, S fc), St (world s) (trace s ++ [Print (LoopEx TypeError)])).
Proof.
  intros H. unfold update_one, try_except, bind, call_send_update_request.
  rewrite bool_decide_eq_true_2 by assumption. reflexivity.
Qed.

End CmdbMore.

Section CmdbRuns.
Import UpdateCmdb CmdbOutcomes CmdbRun.
Context {W : Type} (api : UpdateCmdb.Api W).

(** X7. With at least one data row the csv phase of [__init__] always
    runs to its end, whatever fails on the way: it returns normally, the
    run ends with the banner and the two summary lines, and the two
    counts of the summary are the numbers of success and failure lines
    printed and add up to the number of rows. *)
Theorem update_rows_completes (network_type filename : string)
    (s : st W event) (rows : list row) (w' : W) :
  csv_DictReader api filename (world s) = (Returns rows, w') ->
  rows <> [] ->
  exists success_counter failure_counter os before s',
    update_rows api network_type filename s = (Ok tt, s')
    /\ trace s'
       = before ++
         [Print Blank; Print DoneBanner;
          Print (SummarySuccess success_counter (length rows));
          Print (SummaryFailure failure_counter (length rows))]
    /\ outcomes (trace s') = outcomes (trace s) ++ os
    /\ success_counter = count true os
    /\ failure_counter = count false os
    /\ (success_counter + failure_counter = length rows)%nat.
Proof.
  intros Hread Hrows.
  unfold update_rows. unfold bind at 1. unfold emit at 1.
  unfold bind at 1. unfold read_csv_file, api_call. cbn [world trace].
  rewrite Hread. cbn [res_of_reply].
  unfold bind at 1. unfold emit at 1. cbn [world trace].
  destruct rows as [|row rows]; [contradiction|].
  change (length (row :: rows) =? 0)%nat with false. cbv iota.
  unfold bind at 1. unfold emit at 1. cbn [world trace].
  unfold bind at 1.
  match goal with
  | |- context [for_fold ?l ?body ?acc ?s0] =>
      destruct (update_loop_run api network_type l 0 0 s0)
        as (os & s2 & E & Ho & Hl)
  end.
  rewrite E. simpl in E.
  exists (count true os), (count false os), os.
  exists (trace s2). eexists. split.
  { unfold bind, emit. simpl. reflexivity. }
  split.
  { simpl. rewrite <- !app_assoc. reflexivity. }
  split.
  { simpl. rewrite !outcomes_app, Ho. simpl in *.
    rewrite !outcomes_app. simpl. now rewrite !app_nil_r. }
  rewrite count_length. auto.
Qed.

(** X8. Without a configured identity the identifier of the first entry
    of [my_clients] becomes the default client, with no further check,
    and the run goes on to the csv file; with an empty [my_clients] the
    run ends at once with [IndexError]. *)
Theorem init_without_client_id (config : config) (s : st W event) :
  client_id config = None ->
  (forall client rest z,
     my_clients api = client :: rest -> entry_id client = Some z ->
     CmdbUpdateTool_init api config s
     = update_rows api (network_type config) (cmdb_csv_filename config)
         (St (world s) (trace s ++ [SetDefaultClientId (PInt z)])))
  /\ (my_clients api = [] ->
      CmdbUpdateTool_init api config s = (Raise IndexError, s)).
Proof.
  intros Hc. unfold CmdbUpdateTool_init. rewrite Hc. split.
  - intros client rest z Hm Hz. unfold bind at 1.
    rewrite (get_client_id_first api client rest z s Hm Hz).
    unfold bind at 1. unfold api_call. reflexivity.
  - intros Hm. unfold bind at 1. unfold get_client_id, bind, lift.
    rewrite Hm. reflexivity.
Qed.

End CmdbRuns.

Lemma update_rows_completes_witness :
  exists success_counter failure_counter os before s',
    UpdateCmdb.update_rows
      (Samples.cmdb_api [10]
         [UpdateCmdb.Row Samples.sparse_row None; MoreSamples.long_row])
      "IP" "cmdb.csv" Samples.s0 = (Ok tt, s')
    /\ trace s'
       = before ++
         [UpdateCmdb.Print UpdateCmdb.Blank;
          UpdateCmdb.Print UpdateCmdb.DoneBanner;
          UpdateCmdb.Print (UpdateCmdb.SummarySuccess success_counter 2);
          UpdateCmdb.Print (UpdateCmdb.SummaryFailure failure_counter 2)]
    /\ CmdbOutcomes.outcomes (trace s') = [] ++ os
    /\ success_counter = CmdbOutcomes.count true os
    /\ failure_counter = CmdbOutcomes.count false os
    /\ (success_counter + failure_counter = 2)%nat.
Proof.
  apply (update_rows_completes
           (Samples.cmdb_api [10]
              [UpdateCmdb.Row Samples.sparse_row None; MoreSamples.long_row])
           "IP" "cmdb.csv" Samples.s0
           [UpdateCmdb.Row Samples.sparse_row None; MoreSamples.long_row] tt);
    [reflexivity | discriminate].
Defined.

Lemma init_without_client_id_witness :
  UpdateCmdb.CmdbUpdateTool_init (Samples.cmdb_api [30; 10] [])
    (Samples.sample_config "IP" None) Samples.s0
  = UpdateCmdb.update_rows (Samples.cmdb_api [30; 10] []) "IP" "cmdb.csv"
      (St tt [UpdateCmdb.SetDefaultClientId (PInt 30)])
  /\ UpdateCmdb.CmdbUpdateTool_init (Samples.cmdb_api [] [])
       (Samples.sample_config "IP" None) Samples.s0
     = (Raise IndexError, Samples.s0).
Proof.
  split.
  - apply (proj1 (init_without_client_id (Samples.cmdb_api [30; 10] [])
                    (Samples.sample_config "IP" None) Samples.s0 eq_refl)
             (PDict [("id", PInt 30)]) [PDict [("id", PInt 10)]] 30);
      reflexivity.
  - apply (proj2 (init_without_client_id (Samples.cmdb_api [] [])
                    (Samples.sample_config "IP" None) Samples.s0 eq_refl)).
    reflexivity.
Defined.

Lemma send_update_request_all_blank_witness :
  CmdbOutcomes.submissions
    (trace (UpdateCmdb.send_update_request (Samples.cmdb_api [10] []) "IP"
              MoreSamples.host_only_row Samples.s0).2)
  = [([UpdateCmdb.Criterion "ipAddress" false "EXACT" (Some "10.0.0.7")], ∅)].
Proof.
  apply (send_update_request_all_blank (Samples.cmdb_api [10] []) "IP"
           MoreSamples.host_only_row "10.0.0.7" Samples.s0);
    [reflexivity | discriminate |].
  intros k v Hk Hv.
  change MoreSamples.host_only_row
    with (<["host" := Some "10.0.0.7"]>
            (<["os" := Some ""]>
               (<["location" := Some ""]>
                  (<["asset_tag" := Some ""]>
                     (∅ : gmap string (option string)))))) in Hv.
  repeat (rewrite lookup_insert in Hv; case_decide;
          [subst; first [contradiction | now injection Hv] |]).
  now rewrite lookup_empty in Hv.
Defined.

Lemma send_update_request_passes_reply_witness :
  (UpdateCmdb.send_update_request (Samples.cmdb_api [10] []) "hostname"
     {[ "host" := Some "ghost" ]} Samples.s0).1
  = Raise (NoMatchFound "no match").
Proof.
  apply (send_update_request_passes_reply (Samples.cmdb_api [10] [])
           "hostname" {[ "host" := Some "ghost" ]} "ghost" Samples.s0);
    [reflexivity | discriminate].
Defined.

Lemma send_update_request_no_host_text_witness :
  UpdateCmdb.send_update_request (Samples.cmdb_api [10] []) "IP"
    {[ "host" := None; "os" := Some "Linux" ]} Samples.s0
  = (Raise (ValueError "There was no host provided for this row."),
     Samples.s0).
Proof.
  apply (send_update_request_no_host_text (Samples.cmdb_api [10] []) "IP"
           {[ "host" := None; "os" := Some "Linux" ]} Samples.s0).
  right. reflexivity.
Defined.

Lemma update_one_long_row_witness :
  UpdateCmdb.update_one (Samples.cmdb_api [10] []) "IP" (0, 0)%nat
    MoreSamples.long_row Samples.s0
  = (Ok (0, 1)%nat,
     St tt [UpdateCmdb.Print (UpdateCmdb.LoopEx TypeError)]).
Proof.
  apply (update_one_long_row (Samples.cmdb_api [10] []) "IP" 0 0
           MoreSamples.long_row Samples.s0).
  eexists. reflexivity.
Defined.

(** ** import_tags.py, further *)

Section TagMore.
Import ImportTags TagOutcomes TagRun.
Context {W : Type} (api : ImportTags.Api W).

Lemma existsb_eqb_elem (t : string) (l : list string) :
  existsb (String.eqb t) l = bool_decide (t ∈ l).
Proof.
  induction l as [|x l IH]; [reflexivity|]. simpl. rewrite IH.
  destruct (String.eqb_spec t x) as [->|Hne]; simpl.
  - symmetry. apply bool_decide_eq_true. left.
  - apply bool_decide_ext. rewrite elem_of_cons. naive_solver.
Qed.

(** X9. A tag type outside the enumeration, or in another case than the
    enumeration spells it, is refused with the [ValueError] that lists
    the valid types; nothing is submitted. *)
Theorem create_tag_rejects_unknown_type (cid : pyobj)
    (tag_info : gmap string string) (t : string) (s : st W event) :
  tag_info !! "" = None ->
  tag_info !! "tag_type" = Some t ->
  t ∉ acceptable_types ->
  create_tag api cid tag_info s = (Raise (ValueError invalid_type_msg), s).
Proof.
  intros Hblank Ht Hno. rewrite create_tag_run. unfold contains.
  rewrite bool_decide_eq_false_2 by (rewrite Hblank; apply is_Some_None).
  rewrite Ht, existsb_eqb_elem, bool_decide_eq_false_2 by assumption.
  reflexivity.
Qed.

(** X10. A row with the six columns, no column with a blank name and a
    tag type of the enumeration is submitted once, under the identity of
    the run and with its six cells as they are; [create_tag] hands on
    what the tag-creation operation answers, the new tag identifier or
    the exception it raised. *)
Theorem create_tag_submits_valid_row (cid : pyobj)
    (tag_info : gmap string string) (t n d o c l : string) (s : st W event) :
  tag_info !! "" = None ->
  tag_info !! "tag_type" = Some t -> t ∈ acceptable_types ->
  tag_info !! "name" = Some n -> tag_info !! "desc" = Some d ->
  tag_info !! "owner" = Some o -> tag_info !! "color" = Some c ->
  tag_info !! "locked" = Some l ->
  let reply := tags_create api cid t n d o c l (world s) in
  create_tag api cid tag_info s
  = (res_of_reply reply.1,
     St reply.2 (trace s ++ [TagsCreate cid t n d o c l])).
Proof.
  intros Hblank Ht Hin Hn Hd Ho Hc Hl. cbv zeta.
  rewrite create_tag_run. unfold contains.
  rewrite bool_decide_eq_false_2 by (rewrite Hblank; apply is_Some_None).
  rewrite Ht, existsb_eqb_elem, bool_decide_eq_true_2 by assumption.
  simpl. rewrite Hn, Hd, Ho, Hc, Hl.
  destruct (tags_create api cid t n d o c l (world s)). reflexivity.
Qed.

(** What [create_tag] can add to the submissions of a run. *)
Lemma create_tag_submissions (cid : pyobj) (tag_info : gmap string string)
    (s : st W event) :
  exists new,
    submissions (trace (create_tag api cid tag_info s).2)
    = submissions (trace s) ++ new
    /\ Forall (valid_submission cid) new
    /\ (length new <= 1)%nat.
Proof.
  rewrite create_tag_run.
  assert (Hnone : exists new : list event,
             submissions (trace s) = submissions (trace s) ++ new
             /\ Forall (valid_submission cid) new /\ (length new <= 1)%nat).
  { exists []. rewrite app_nil_r. repeat split; [constructor|simpl; lia]. }
  destruct (contains tag_info ""); [exact Hnone|].
  destruct (tag_info !! "tag_type") as [t|]; [|exact Hnone].
  rewrite existsb_eqb_elem. case_bool_decide as Hin; simpl; [|exact Hnone].
  destruct (tag_info !! "name") as [n|]; [|exact Hnone].
  destruct (tag_info !! "desc") as [d|]; [|exact Hnone].
  destruct (tag_info !! "owner") as [o|]; [|exact Hnone].
  destruct (tag_info !! "color") as [c|]; [|exact Hnone].
  destruct (tag_info !! "locked") as [l|]; [|exact Hnone].
  destruct (tags_create api cid t n d o c l (world s)) as [r w']. simpl.
  exists [TagsCreate cid t n d o c l]. rewrite tag_submissions_app.
  repeat split; [|simpl; lia].
  apply Forall_singleton. simpl. auto.
Qed.

Lemma create_one_submissions (cid : pyobj) (item : gmap string string)
    (s : st W event) :
  exists new,
    submissions (trace (create_one api cid item s).2)
    = submissions (trace s) ++ new
    /\ Forall (valid_submission cid) new
    /\ (length new <= 1)%nat.
Proof.
  unfold create_one. unfold bind at 1. unfold subscript at 1.
  destruct (item !! "name") as [n|] eqn:Hn.
  2:{ exists []. simpl. rewrite app_nil_r.
      repeat split; [constructor|simpl; lia]. }
  unfold ret at 1. unfold bind at 1. unfold emit at 1.
  set (s1 := St (world s) (trace s ++ [Print (Attempting n)])).
  destruct (create_tag_submissions cid item s1) as (new & Hs & Hv & Hl).
  exists new. split; [|auto].
  assert (Hs1 : submissions (trace s1) = submissions (trace s)).
  { unfold s1. simpl. rewrite tag_submissions_app. simpl. apply app_nil_r. }
  rewrite Hs1 in Hs. rewrite <- Hs.
  unfold try_except, bind.
  destruct (create_tag api cid item s1) as [[i|e|code] s2]; simpl.
  - unfold subscript. rewrite Hn. simpl.
    rewrite tag_submissions_app. simpl. apply app_nil_r.
  - destruct (is_RequestFailed e); simpl.
    + rewrite tag_submissions_app. simpl. apply app_nil_r.
    + destruct (is_ValueError e); simpl; [|reflexivity].
      rewrite tag_submissions_app. simpl. apply app_nil_r.
  - reflexivity.
Qed.

Lemma create_loop_submissions (cid : pyobj) (rows : list (gmap string string))
    (s : st W event) :
  exists new,
    submissions (trace (for_each rows (create_one api cid) s).2)
    = submissions (trace s) ++ new
    /\ Forall (valid_submission cid) new
    /\ (length new <= length rows)%nat.
Proof.
  revert s. induction rows as [|item rows IH]; intros s.
  - exists []. simpl. rewrite app_nil_r. repeat split; [constructor|lia].
  - cbn [for_each]. unfold bind at 1.
    destruct (create_one_submissions cid item s) as (new1 & Hs1 & Hv1 & Hl1).
    destruct (create_one api cid item s) as [[[]|e|code] s1]; simpl in Hs1.
    + destruct (IH s1) as (new2 & Hs2 & Hv2 & Hl2).
      exists (new1 ++ new2). rewrite Hs2, Hs1, <- app_assoc.
      repeat split.
      * apply Forall_app. auto.
      * rewrite length_app. simpl. lia.
    + exists new1. simpl. repeat split; auto. lia.
    + exists new1. simpl. repeat split; auto. lia.
Qed.

(** X11. Whatever the rows hold and whatever the service answers, the
    loop of [main] submits at most one tag per record, each under the
    identity of the run and with a tag type of the enumeration. *)
Theorem create_loop_submits_valid_tags (cid : pyobj)
    (rows : list (gmap string string)) (s : st W event) :
  exists new,
    submissions (trace (for_each rows (create_one api cid) s).2)
    = submissions (trace s) ++ new
    /\ Forall (valid_submission cid) new
    /\ (length new <= length rows)%nat.
Proof. apply create_loop_submissions. Qed.

Lemma import_rows_submissions (cid : pyobj) (s : st W event) :
  exists new,
    submissions (trace (import_rows api cid s).2) = submissions (trace s) ++ new
    /\ Forall (valid_submission cid) new.
Proof.
  unfold import_rows. unfold bind at 1. unfold read_csv_file, api_call.
  destruct (csv_DictReader api TAG_CSV_FILENAME (world s)) as [[rows|e] w'];
    simpl.
  2:{ exists []. rewrite tag_submissions_app. simpl.
      split; [reflexivity|constructor]. }
  unfold bind at 1. unfold emit at 1. cbn [world trace].
  unfold bind at 1.
  match goal with
  | |- context [for_each rows _ ?s0] =>
      destruct (create_loop_submissions cid rows s0) as (new & Hs & Hv & _);
      destruct (for_each rows (create_one api cid) s0) as [[[]|e|code] s2]
  end; simpl in Hs; rewrite !tag_submissions_app in Hs; simpl in Hs;
    rewrite !app_nil_r in Hs; exists new; (split; [|exact Hv]); simpl;
    rewrite ?tag_submissions_app; simpl; rewrite ?app_nil_r; exact Hs.
Qed.

Lemma validate_client_id_submissions (c : Z) (s : st W event) :
  submissions (trace (validate_client_id api c s).2) = submissions (trace s).
Proof.
  unfold validate_client_id. unfold bind at 1. unfold try_except, api_call.
  destruct (get_clients api 300 0 (world s)) as [[page|e] w']; simpl.
  - unfold bind, lift.
    destruct (getitem page "_embedded") as [embedded| |]; simpl;
      try (rewrite tag_submissions_app; simpl; apply app_nil_r).
    destruct (getitem embedded "clients") as [clients| |]; simpl;
      try (rewrite tag_submissions_app; simpl; apply app_nil_r).
    destruct (iterate clients) as [entries| |]; simpl;
      rewrite tag_submissions_app; simpl; apply app_nil_r.
  - destruct (is_RequestFailed e); simpl;
      rewrite !tag_submissions_app; simpl; now rewrite ?app_nil_r.
Qed.

(** X12. In a run with a configured identity, whatever the listing and
    the csv file hold and whatever the service answers, every tag that
    is submitted carries that identity and a tag type of the
    enumeration. *)
Theorem main_submits_under_configured_identity (c : Z) (s : st W event) :
  exists new,
    submissions (trace (main api (Some c) s).2) = submissions (trace s) ++ new
    /\ Forall (valid_submission (PInt c)) new.
Proof.
  unfold main. unfold bind at 1. unfold bind at 1.
  pose proof (validate_client_id_submissions c s) as Hval.
  destruct (validate_client_id api c s) as [[[]|e|code] s1]; simpl in Hval.
  - unfold ret at 1.
    destruct (import_rows_submissions (PInt c) s1) as (new & Hs & Hv).
    exists new. rewrite Hs, Hval. auto.
  - exists []. unfold bind, emit, sys_exit. simpl.
    rewrite !tag_submissions_app, Hval. simpl.
    rewrite !app_nil_r. split; [reflexivity|constructor].
  - exists []. simpl. rewrite Hval, app_nil_r. split; [reflexivity|constructor].
  - exists []. simpl. rewrite Hval, app_nil_r. split; [reflexivity|constructor].
Qed.

(** X13. When the listing query that [main] starts with is refused with
    [RequestFailed], with or without a configured identity, the refusal
    is reported and the process leaves with status 1; no file is read
    and nothing is submitted. *)
Theorem main_listing_refused (CLIENT_ID : option Z) (s : st W event)
    (msg : string) (w' : W) :
  get_clients api (first_query CLIENT_ID) 0 (world s)
  = (Raises (RequestFailed msg), w') ->
  main api CLIENT_ID s
  = (SysExit 1,
     St w' (trace s ++ [GetClients (first_query CLIENT_ID) 0;
                        Print (refusal_line CLIENT_ID); Print Exiting])).
Proof.
  intros H. unfold main.
  destruct CLIENT_ID as [c|]; simpl in H |- *.
  - unfold bind at 1. unfold bind at 1.
    unfold validate_client_id. unfold bind at 1.
    unfold try_except, api_call. rewrite H. simpl.
    unfold bind, emit, sys_exit. simpl. now rewrite <- !app_assoc.
  - unfold bind at 1. unfold get_client_id. unfold bind at 1.
    unfold try_except, api_call. rewrite H. simpl.
    unfold bind, emit, sys_exit. simpl. now rewrite <- !app_assoc.
Qed.

Lemma tag_reads_app (t u : list event) : reads (t ++ u) = reads t ++ reads u.
Proof. apply omap_app. Qed.

Lemma create_tag_reads (cid : pyobj) (tag_info : gmap string string)
    (s : st W event) :
  reads (trace (create_tag api cid tag_info s).2) = reads (trace s).
Proof.
  rewrite create_tag_run.
  destruct (contains tag_info ""); [reflexivity|].
  destruct (tag_info !! "tag_type") as [t|]; [|reflexivity].
  destruct (negb (existsb (String.eqb t) acceptable_types)); [reflexivity|].
  destruct (tag_info !! "name") as [n|]; [|reflexivity].
  destruct (tag_info !! "desc") as [d|]; [|reflexivity].
  destruct (tag_info !! "owner") as [o|]; [|reflexivity].
  destruct (tag_info !! "color") as [c|]; [|reflexivity].
  destruct (tag_info !! "locked") as [l|]; [|reflexivity].
  destruct (tags_create api cid t n d o c l (world s)) as [r w']. simpl.
  rewrite tag_reads_app. simpl. apply app_nil_r.
Qed.

Lemma create_one_reads (cid : pyobj) (item : gmap string string)
    (s : st W event) :
  reads (trace (create_one api cid item s).2) = reads (trace s).
Proof.
  unfold create_one. unfold bind at 1. unfold subscript at 1.
  destruct (item !! "name") as [n|] eqn:Hn; [|reflexivity].
  unfold ret at 1. unfold bind at 1. unfold emit at 1.
  set (s1 := St (world s) (trace s ++ [Print (Attempting n)])).
  pose proof (create_tag_reads cid item s1) as Hr.
  assert (Hs1 : reads (trace s1) = reads (trace s)).
  { unfold s1. simpl. rewrite tag_reads_app. simpl. apply app_nil_r. }
  rewrite Hs1 in Hr. rewrite <- Hr.
  unfold try_except, bind.
  destruct (create_tag api cid item s1) as [[i|e|code] s2]; simpl.
  - unfold subscript. rewrite Hn. simpl.
    rewrite tag_reads_app. simpl. apply app_nil_r.
  - destruct (is_RequestFailed e); simpl.
    + rewrite tag_reads_app. simpl. apply app_nil_r.
    + destruct (is_ValueError e); simpl; [|reflexivity].
      rewrite tag_reads_app. simpl. apply app_nil_r.
  - reflexivity.
Qed.

Lemma create_loop_reads (cid : pyobj) (rows : list (gmap string string))
    (s : st W event) :
  reads (trace (for_each rows (create_one api cid) s).2) = reads (trace s).
Proof.
  revert s. induction rows as [|item rows IH]; intros s; [reflexivity|].
  cbn [for_each]. unfold bind at 1.
  pose proof (create_one_reads cid item s) as H1.
  destruct (create_one api cid item s) as [[[]|e|code] s1]; simpl in H1;
    [rewrite IH|simpl|simpl]; exact H1.
Qed.

(** X14. A run with a configured identity that is on the page of the
    listing, a readable csv file whose rows have the six columns and a
    service that fails as documented runs to its end: the file is read
    once, every record ends in one outcome line, the last line printed
    is the closing one and the script returns normally. *)
Theorem main_completes (c : Z) (s : st W event) (page : pyobj) (w1 w2 : W)
    (ids : list Z) (rows : list (gmap string string)) :
  get_clients api 300 0 (world s) = (Returns page, w1) ->
  listed_ids page = Some ids -> c ∈ ids ->
  csv_DictReader api TAG_CSV_FILENAME w1 = (Returns rows, w2) ->
  Forall has_tag_columns rows ->
  raises_as_documented api ->
  exists os before s',
    main api (Some c) s = (Ok tt, s')
    /\ trace s' = before ++ [Print Blank; Print Done]
    /\ outcomes (trace s') = outcomes (trace s) ++ os
    /\ length os = length rows
    /\ reads (trace s') = reads (trace s) ++ [TAG_CSV_FILENAME].
Proof.
  intros Hget Hids Hc Hread Hrows Hdoc.
  rewrite (main_explicit_run api c s page w1 ids Hget Hids).
  rewrite bool_decide_eq_true_2 by assumption.
  unfold import_rows. unfold bind at 1. unfold read_csv_file, api_call.
  cbn [world trace]. rewrite Hread. cbn [res_of_reply].
  unfold bind at 1. unfold emit at 1. cbn [world trace].
  unfold bind at 1.
  match goal with
  | |- context [for_each rows _ ?s0] =>
      destruct (create_loop_run api (PInt c) rows s0 Hrows Hdoc)
        as (s2 & os & E & Ho & Hl);
      pose proof (create_loop_reads (PInt c) rows s0) as Hr
  end.
  rewrite E in Hr |- *. simpl in Hr.
  exists os, (trace s2). eexists. split.
  { unfold bind, emit. simpl. reflexivity. }
  split; [simpl; now rewrite <- app_assoc|].
  split.
  { simpl. rewrite !tag_outcomes_app, Ho. simpl.
    rewrite !tag_outcomes_app. simpl. now rewrite !app_nil_r. }
  split; [exact Hl|].
  simpl. rewrite !tag_reads_app, Hr. simpl.
  rewrite !tag_reads_app. simpl. now rewrite !app_nil_r.
Qed.

End TagMore.

(** X15. When the csv file cannot be read, either tool ends with the
    exception of the reader, uncaught, so with status 1; the csv phase
    has submitted nothing and, in the CMDB tool, printed only its
    opening line. *)
Theorem csv_unreadable_ends_run :
  (forall W (api : UpdateCmdb.Api W) network_type filename s e w',
     UpdateCmdb.csv_DictReader api filename (world s) = (Raises e, w') ->
     UpdateCmdb.update_rows api network_type filename s
     = (Raise e,
        St w' (trace s ++ [UpdateCmdb.Print UpdateCmdb.ReadingCsv;
                           UpdateCmdb.ReadCsv filename]))
     /\ exit_status (UpdateCmdb.update_rows api network_type filename s).1 = 1)
  /\ (forall W (api : ImportTags.Api W) cid s e w',
        ImportTags.csv_DictReader api ImportTags.TAG_CSV_FILENAME (world s)
        = (Raises e, w') ->
        ImportTags.import_rows api cid s
        = (Raise e,
           St w' (trace s ++ [ImportTags.ReadCsv ImportTags.TAG_CSV_FILENAME]))
        /\ exit_status (ImportTags.import_rows api cid s).1 = 1).
Proof.
  split.
  - intros W api network_type filename s e w' H.
    assert (E : UpdateCmdb.update_rows api network_type filename s
                = (Raise e,
                   St w' (trace s ++ [UpdateCmdb.Print UpdateCmdb.ReadingCsv;
                                      UpdateCmdb.ReadCsv filename]))).
    { unfold UpdateCmdb.update_rows, bind, emit, UpdateCmdb.read_csv_file,
        api_call. simpl. rewrite H. simpl. now rewrite <- app_assoc. }
    rewrite E. auto.
  - intros W api cid s e w' H.
    assert (E : ImportTags.import_rows api cid s
                = (Raise e,
                   St w' (trace s ++
                          [ImportTags.ReadCsv ImportTags.TAG_CSV_FILENAME]))).
    { unfold ImportTags.import_rows, bind, ImportTags.read_csv_file, api_call.
      rewrite H. reflexivity. }
    rewrite E. auto.
Qed.

Lemma csv_unreadable_ends_run_witness :
  exit_status
    (UpdateCmdb.update_rows MoreSamples.no_file_cmdb_api "IP" "cmdb.csv"
       Samples.s0).1 = 1
  /\ exit_status
       (ImportTags.import_rows MoreSamples.no_file_tag_api (PInt 10)
          Samples.s0).1 = 1.
Proof.
  split.
  - apply (proj1 csv_unreadable_ends_run unit MoreSamples.no_file_cmdb_api
             "IP" "cmdb.csv" Samples.s0
             (OtherException "No such file or directory") tt eq_refl).
  - apply (proj2 csv_unreadable_ends_run unit MoreSamples.no_file_tag_api
             (PInt 10) Samples.s0
             (OtherException "No such file or directory") tt eq_refl).
Defined.

Lemma create_tag_rejects_unknown_type_witness :
  ImportTags.create_tag (Samples.tag_api [10] []) (PInt 10)
    (Samples.tag_row "custom" "web" "servers") Samples.s0
  = (Raise (ValueError ImportTags.invalid_type_msg), Samples.s0).
Proof.
  apply (create_tag_rejects_unknown_type (Samples.tag_api [10] []) (PInt 10)
           (Samples.tag_row "custom" "web" "servers") "custom" Samples.s0);
    [reflexivity | reflexivity |].
  apply (bool_decide_unpack _). vm_compute. reflexivity.
Defined.

Lemma create_tag_submits_valid_row_witness :
  ImportTags.create_tag (Samples.tag_api [10] []) (PInt 10)
    (Samples.tag_row "CMDB" "dup" "again") Samples.s0
  = (Raise (RequestFailed "tag exists"),
     St tt [ImportTags.TagsCreate (PInt 10) "CMDB" "dup" "again" "1"
              "#648d9f" "false"]).
Proof.
  apply (create_tag_submits_valid_row (Samples.tag_api [10] []) (PInt 10)
           (Samples.tag_row "CMDB" "dup" "again")
           "CMDB" "dup" "again" "1" "#648d9f" "false" Samples.s0);
    try reflexivity.
  apply (bool_decide_unpack _). vm_compute. reflexivity.
Defined.

Lemma main_listing_refused_witness :
  ImportTags.main MoreSamples.offline_tag_api None Samples.s0
  = (SysExit 1,
     St tt [ImportTags.GetClients 1 0;
            ImportTags.Print ImportTags.UnableRetrieve;
            ImportTags.Print ImportTags.Exiting])
  /\ ImportTags.main MoreSamples.offline_tag_api (Some 20) Samples.s0
     = (SysExit 1,
        St tt [ImportTags.GetClients 300 0;
               ImportTags.Print ImportTags.UnableRetrieveForValidation;
               ImportTags.Print ImportTags.Exiting]).
Proof.
  split.
  - apply (main_listing_refused MoreSamples.offline_tag_api None Samples.s0
             "401" tt eq_refl).
  - apply (main_listing_refused MoreSamples.offline_tag_api (Some 20)
             Samples.s0 "401" tt eq_refl).
Defined.

Lemma main_completes_witness :
  exists os before s',
    ImportTags.main
      (Samples.tag_api [10; 20; 30]
         [Samples.tag_row "CUSTOM" "web" "servers";
          Samples.tag_row "BOGUS" "db" "databases"])
      (Some 20) Samples.s0 = (Ok tt, s')
    /\ trace s'
       = before ++ [ImportTags.Print ImportTags.Blank;
                    ImportTags.Print ImportTags.Done]
    /\ TagOutcomes.outcomes (trace s') = [] ++ os
    /\ length os = 2%nat
    /\ TagOutcomes.reads (trace s') = [] ++ [ImportTags.TAG_CSV_FILENAME].
Proof.
  apply (main_completes
           (Samples.tag_api [10; 20; 30]
              [Samples.tag_row "CUSTOM" "web" "servers";
               Samples.tag_row "BOGUS" "db" "databases"])
           20 Samples.s0 (clients_page [10; 20; 30]) tt tt [10; 20; 30]
           [Samples.tag_row "CUSTOM" "web" "servers";
            Samples.tag_row "BOGUS" "db" "databases"]).
  - reflexivity.
  - apply listed_ids_clients_page.
  - apply (bool_decide_unpack _). vm_compute. reflexivity.
  - reflexivity.
  - unfold TagOutcomes.has_tag_columns.
    repeat first [ eexists; reflexivity | constructor ].
  - intros cid t n d o c l w e w' H. simpl in H.
    destruct (String.eqb n "dup"); inversion H. reflexivity.
Defined.

(** ** Scanning the client entries *)

(** X16. Neither tool stops scanning the client entries at a match:
    when the entries before some entry carry identifiers and that entry
    has none, looking up its [id] fails and validation ends with that
    failure, also when the configured identity is among the entries
    before it. *)
Theorem identity_scan_reads_every_entry (before after : list pyobj)
    (client : pyobj) (ids : list Z) (c : Z) (validity : bool) (e : exn) :
  entry_ids before = Some ids ->
  getitem client "id" = Raise e ->
  ImportTags.validate_loop (before ++ client :: after) c validity = Raise e
  /\ UpdateCmdb.client_ids (before ++ client :: after) = Raise e.
Proof.
  intros Hids He. split.
  - revert ids validity Hids.
    induction before as [|x before IH]; intros ids validity Hids.
    + simpl. now rewrite He.
    + apply entry_ids_cons in Hids as (z & ids' & -> & Hz & Hids').
      simpl. rewrite (entry_id_getitem _ _ Hz). now apply (IH ids').
  - revert ids Hids. induction before as [|x before IH]; intros ids Hids.
    + simpl. now rewrite He.
    + apply entry_ids_cons in Hids as (z & ids' & -> & Hz & Hids').
      simpl. rewrite (entry_id_getitem _ _ Hz). now rewrite (IH ids').
Qed.

Lemma identity_scan_reads_every_entry_witness :
  ImportTags.validate_loop
    [PDict [("id", PInt 20)]; PDict [("name", PStr "n")]] 20 false
  = Raise (KeyError "id")
  /\ UpdateCmdb.client_ids
       [PDict [("id", PInt 20)]; PDict [("name", PStr "n")]]
     = Raise (KeyError "id").
Proof.
  apply (identity_scan_reads_every_entry [PDict [("id", PInt 20)]] []
           (PDict [("name", PStr "n")]) [20] 20 false (KeyError "id"));
    reflexivity.
Defined.

(** ** A whole run of update_cmdb.py *)

Section CmdbWholeRun.
Import UpdateCmdb CmdbOutcomes CmdbRun.
Context {W : Type} (api : UpdateCmdb.Api W).

Lemma update_one_trace (network_type : string) (counters : nat * nat)
    (item : row) (s : st W event) :
  exists mid,
    trace (update_one api network_type counters item s).2 = trace s ++ mid.
Proof.
  destruct counters as [sc fc].
  destruct (update_one_full api network_type sc fc item s)
    as (b & s' & mid & E & Ht & _).
  exists mid. now rewrite E.
Qed.

Lemma update_loop_trace (network_type : string)
    (rows : list row) (counters : nat * nat) (s : st W event) :
  exists mid,
    trace (for_fold rows (update_one api network_type) counters s).2
    = trace s ++ mid.
Proof.
  revert counters s. induction rows as [|item rows IH]; intros [sc fc] s.
  - exists []. simpl. now rewrite app_nil_r.
  - cbn [for_fold]. unfold bind at 1.
    destruct (update_one_trace network_type (sc, fc) item s) as (m1 & H1).
    destruct (update_one_run api network_type sc fc item s) as (b & s1 & E & _).
    rewrite E in H1 |- *. simpl in H1.
    destruct (IH (if b then (S sc, fc) else (sc, S fc)) s1) as (m2 & H2).
    exists (m1 ++ m2). now rewrite H2, H1, app_assoc.
Qed.

(** X17. A run with a configured identity that is among [my_clients]
    and a csv file with at least one row returns normally. The default
    client is set to that identity before the file is read, the file is
    read before anything is sent, and the requests sent are, in file
    order, those of the rows that have host text, no cells beyond the
    header and no column called [self]. *)
Theorem init_completes (config : config) (c : Z) (s : st W event)
    (ids : list Z) (rows : list row) (w' : W) :
  client_id config = Some c ->
  entry_ids (my_clients api) = Some ids -> c ∈ ids ->
  csv_DictReader api (cmdb_csv_filename config) (world s)
  = (Returns rows, w') ->
  rows <> [] ->
  exists after s',
    CmdbUpdateTool_init api config s = (Ok tt, s')
    /\ trace s'
       = trace s ++
         [SetDefaultClientId (PInt c); Print ReadingCsv;
          ReadCsv (cmdb_csv_filename config);
          Print (ItemsFound (length rows)); Print Blank] ++ after
    /\ submissions after = omap (request_of (network_type config)) rows.
Proof.
  intros Hc Hids Hin Hread Hrows.
  rewrite (init_explicit_run api config c s ids Hc Hids).
  rewrite bool_decide_eq_true_2 by assumption.
  unfold update_rows. unfold bind at 1. unfold emit at 1.
  unfold bind at 1. unfold read_csv_file, api_call. cbn [world trace].
  rewrite Hread. cbn [res_of_reply].
  unfold bind at 1. unfold emit at 1. cbn [world trace].
  destruct rows as [|row rows]; [contradiction|].
  change (length (row :: rows) =? 0)%nat with false. cbv iota.
  unfold bind at 1. unfold emit at 1. cbn [world trace].
  unfold bind at 1.
  match goal with
  | |- context [for_fold ?l ?body ?acc ?s0] =>
      destruct (update_loop_run api (network_type config) l 0 0 s0)
        as (os & s2 & E & _);
      destruct (update_loop_trace (network_type config) l (0, 0)%nat s0)
        as (mid & Ht);
      pose proof (update_loop_submissions api (network_type config) l
                    (0, 0)%nat s0) as Hs
  end.
  rewrite E in Ht, Hs |- *. simpl in Ht, Hs.
  rewrite Ht, !submissions_app in Hs. simpl in Hs.
  rewrite !app_nil_r in Hs. apply app_inv_head in Hs.
  eexists (mid ++ _), _. split; [unfold bind, emit; simpl; reflexivity|].
  split.
  - simpl. rewrite Ht, <- !app_assoc. simpl. reflexivity.
  - rewrite submissions_app. simpl. now rewrite app_nil_r.
Qed.

End CmdbWholeRun.

Lemma init_completes_witness :
  exists after s',
    UpdateCmdb.CmdbUpdateTool_init
      (Samples.cmdb_api [10; 20]
         [UpdateCmdb.Row MoreSamples.host_only_row None; MoreSamples.long_row])
      (Samples.sample_config "IP" (Some 20)) Samples.s0 = (Ok tt, s')
    /\ trace s'
       = trace (@Samples.s0 UpdateCmdb.event) ++
         [UpdateCmdb.SetDefaultClientId (PInt 20);
          UpdateCmdb.Print UpdateCmdb.ReadingCsv;
          UpdateCmdb.ReadCsv "cmdb.csv";
          UpdateCmdb.Print (UpdateCmdb.ItemsFound 2);
          UpdateCmdb.Print UpdateCmdb.Blank] ++ after
    /\ CmdbOutcomes.submissions after
       = omap (CmdbRun.request_of "IP")
           [UpdateCmdb.Row MoreSamples.host_only_row None;
            MoreSamples.long_row].
Proof.
  apply (init_completes
           (Samples.cmdb_api [10; 20]
              [UpdateCmdb.Row MoreSamples.host_only_row None;
               MoreSamples.long_row])
           (Samples.sample_config "IP" (Some 20)) 20 Samples.s0 [10; 20]
           [UpdateCmdb.Row MoreSamples.host_only_row None;
            MoreSamples.long_row] tt).
  - reflexivity.
  - reflexivity.
  - apply (bool_decide_unpack _). vm_compute. reflexivity.
  - reflexivity.
  - discriminate.
Defined.

(** ** A run of update_cmdb.py over ragged rows *)

(** Under the header [host,os,location], the line [web01] is sent with
    its two missing cells in the mapping, and a line with a cell too
    many is counted as a failure without a request. *)
Example cmdb_run_of_ragged_rows :
  let rows := [UpdateCmdb.Row MoreSamples.short_row None;
               MoreSamples.long_row] in
  let r := UpdateCmdb.CmdbUpdateTool_init (Samples.cmdb_api [10; 20; 30] rows)
             (Samples.sample_config "IP" (Some 20)) Samples.s0 in
  r.1 = Ok tt
  /\ CmdbOutcomes.outcomes (trace r.2) = [true; false]
  /\ CmdbOutcomes.submissions (trace r.2)
     = [([UpdateCmdb.Criterion "ipAddress" false "EXACT" (Some "web01")],
         {[ "os" := None; "location" := None ]})].
Proof. vm_compute. repeat split. Qed.
